(** * The image-tool widget controller ([src/ui.ts])

    A shallow embedding of the [Ui] class: the DOM nodes the widget creates
    live in a store indexed by node references, the methods of the class are
    functions on the widget state that may raise a DOM exception, and the
    event listeners the class registers are kept as data on their target
    element, so that the environment can fire them at any later moment. *)

From stdpp Require Import gmap strings list fin_maps.

(** ** Exceptions and fallible computations *)

Inductive DOMException :=
  | SyntaxError
  | InvalidCharacterError
  | NotFoundError
  | TypeError.

Inductive result (A : Type) :=
  | Ok (a : A)
  | Throw (e : DOMException).
Arguments Ok {A} a.
Arguments Throw {A} e.

Definition result_bind {A B} (c : result A) (k : A → result B) : result B :=
  match c with
  | Ok a => k a
  | Throw e => Throw e
  end.

Notation "'let*' x ':=' c 'in' k" := (result_bind c (λ x, k))
  (at level 10, x pattern, c at level 100, k at level 200).

(** [for (const x of l) body(x)] over a state. *)
Fixpoint for_each {A S} (body : A → S → result S) (l : list A) (s : S) : result S :=
  match l with
  | [] => Ok s
  | x :: l' => let* s' := body x s in for_each body l' s'
  end.

(** ** DOM elements *)

(** A reference to a node. *)
Abbreviation loc := nat (only parsing).

(** A value assigned to an element property: [string | boolean]. *)
Inductive AttrValue :=
  | AStr (s : string)
  | ABool (b : bool).

(** The two arrow functions the class registers as event listeners:
    [() => { this.onSelectFile(); }] in [createFileButton], and the closure
    of [fillImage], which captures [tempImageEl]. *)
Inductive Listener :=
  | SelectFileClick
  | MediaReady (tempImageEl : loc).

(** The nodes the host's HTML parser makes from a markup string. The parser
    is the host's: a fragment is kept as the markup it is parsed from.
    Nothing is said about which markups parse to the same nodes, nor about
    what reading [innerHTML] returns, which is the host's serialisation of
    the nodes and not the string that was assigned. *)
Inductive Fragment := ParsedFrom (markup : string).

(** An element. Its children are the nodes of [fragment], made by the parser
    when [innerHTML] was last assigned (none for the empty markup), followed
    by [childNodes], the nodes appended since. [tagName] is in upper case,
    as the DOM reports it. *)
Record Element := mkElement {
  tagName : string;
  classList : list string;
  attributes : gmap string AttrValue;
  style : gmap string string;
  dataset : gmap string string;
  fragment : Fragment;
  childNodes : list loc;
  listeners : list (string * Listener)
}.

Definition set_classList (f : list string → list string) (e : Element) : Element :=
  mkElement (tagName e) (f (classList e)) (attributes e) (style e) (dataset e)
            (fragment e) (childNodes e) (listeners e).
Definition set_attributes (f : gmap string AttrValue → gmap string AttrValue)
    (e : Element) : Element :=
  mkElement (tagName e) (classList e) (f (attributes e)) (style e) (dataset e)
            (fragment e) (childNodes e) (listeners e).
Definition set_style (f : gmap string string → gmap string string) (e : Element) : Element :=
  mkElement (tagName e) (classList e) (attributes e) (f (style e)) (dataset e)
            (fragment e) (childNodes e) (listeners e).
Definition set_dataset (f : gmap string string → gmap string string) (e : Element) : Element :=
  mkElement (tagName e) (classList e) (attributes e) (style e) (f (dataset e))
            (fragment e) (childNodes e) (listeners e).
(** [el.innerHTML = v]: the children are replaced by the nodes parsed from
    [v]. *)
Definition set_innerHTML (v : string) (e : Element) : Element :=
  mkElement (tagName e) (classList e) (attributes e) (style e) (dataset e)
            (ParsedFrom v) [] (listeners e).
Definition set_childNodes (f : list loc → list loc) (e : Element) : Element :=
  mkElement (tagName e) (classList e) (attributes e) (style e) (dataset e)
            (fragment e) (f (childNodes e)) (listeners e).
Definition set_listeners (f : list (string * Listener) → list (string * Listener))
    (e : Element) : Element :=
  mkElement (tagName e) (classList e) (attributes e) (style e) (dataset e)
            (fragment e) (childNodes e) (f (listeners e)).

(** ** [DOMTokenList]: the ordered set of tokens behind [classList] *)

Module DOMTokenList.

(** Tab, line feed, form feed, carriage return and space. *)
Definition ascii_whitespace (c : Ascii.ascii) : bool :=
  bool_decide (Ascii.nat_of_ascii c ∈ [9; 10; 12; 13; 32]).

Fixpoint has_whitespace (t : string) : bool :=
  match t with
  | EmptyString => false
  | String c t' => ascii_whitespace c || has_whitespace t'
  end.

(** Every method validates its tokens before it touches the set. *)
Definition validate (t : string) : result unit :=
  if bool_decide (t = "") then Throw SyntaxError
  else if has_whitespace t then Throw InvalidCharacterError
  else Ok tt.

Definition append_token (t : string) (l : list string) : list string :=
  if bool_decide (t ∈ l) then l else l ++ [t].

Definition remove_token (t : string) (l : list string) : list string :=
  filter (λ x, x ≠ t) l.

(** [classList.add(...tokens)] *)
Definition add (tokens : list string) (l : list string) : result (list string) :=
  let* _ := for_each (λ t u, validate t) tokens tt in
  Ok (foldl (λ acc t, append_token t acc) l tokens).

End DOMTokenList.

(** [style.prop = value]: the empty string removes the declaration. *)
Definition setProperty (prop value : string) (st : gmap string string) : gmap string string :=
  if bool_decide (value = "") then delete prop st else <[prop := value]> st.

(** ** The node store *)

Record Document := mkDocument {
  heap : gmap loc Element;
  next : loc
}.

Definition empty_document : Document := mkDocument ∅ 0.

(** Mutation of the element behind a reference. *)
Definition modify (l : loc) (f : Element → Element) (d : Document) : Document :=
  mkDocument (alter f l (heap d)) (next d).

(** The nodes appended to an element, in order. *)
Definition children_of (d : Document) (l : loc) : list loc :=
  from_option childNodes [] (heap d !! l).

Definition classes_of (d : Document) (l : loc) : list string :=
  from_option classList [] (heap d !! l).

Definition tag_of (d : Document) (l : loc) : string :=
  from_option tagName "" (heap d !! l).

Definition listeners_of (d : Document) (l : loc) : list (string * Listener) :=
  from_option listeners [] (heap d !! l).

Definition style_of (d : Document) (l : loc) (prop : string) : string :=
  default "" (e ← heap d !! l; style e !! prop).

(** ASCII upper case. *)
Definition ascii_upper (c : Ascii.ascii) : Ascii.ascii :=
  let n := Ascii.nat_of_ascii c in
  if (97 <=? n) && (n <=? 122) then Ascii.ascii_of_nat (n - 32) else c.

Fixpoint to_upper (s : string) : string :=
  match s with
  | EmptyString => EmptyString
  | String c s' => String (ascii_upper c) (to_upper s')
  end.

(** [document.createElement(tagName)]: an element without children, whose
    tag name reads in upper case. *)
Definition createElement (tag : string) (d : Document) : loc * Document :=
  (next d,
   mkDocument (<[next d := mkElement (to_upper tag) [] ∅ ∅ ∅ (ParsedFrom "") [] []]>
                 (heap d))
              (S (next d))).

(** [parent.appendChild(child)]: a node that already has a parent is first
    taken out of it. *)
Definition detach (child : loc) (e : Element) : Element :=
  set_childNodes (filter (λ x, x ≠ child)) e.

Definition appendChild (parent child : loc) (d : Document) : Document :=
  mkDocument (alter (set_childNodes (λ cs, cs ++ [child])) parent (detach child <$> heap d))
             (next d).

(** [parent.removeChild(child)] *)
Definition removeChild (parent child : loc) (d : Document) : result Document :=
  if bool_decide (child ∈ children_of d parent)
  then Ok (modify parent (set_childNodes (filter (λ x, x ≠ child))) d)
  else Throw NotFoundError.

(** [target.addEventListener(type, listener)] *)
Definition addEventListener (target : loc) (type : string) (cb : Listener)
    (d : Document) : Document :=
  modify target (set_listeners (λ ls, ls ++ [(type, cb)])) d.

(** [el.classList.toggle(token, force)] with [force] given: the token is
    validated, then made present ([force] true) or absent ([force] false). *)
Definition classList_toggle (l : loc) (token : string) (force : bool)
    (d : Document) : result Document :=
  let* _ := DOMTokenList.validate token in
  Ok (modify l (set_classList (λ cl,
        if force then DOMTokenList.append_token token cl
        else DOMTokenList.remove_token token cl)) d).

(** [Node.contains]: [b] is [a] or one of its descendants. *)
Inductive contains (d : Document) : loc → loc → Prop :=
  | contains_self a : contains d a a
  | contains_child a e b c :
      heap d !! a = Some e → b ∈ childNodes e → contains d b c → contains d a c.

(** Modelled from the spec: the [make] helper of [./utils/dom], which is not
    part of the sources at hand. The spec describes it as the generic
    builder that makes an element of a given kind with a class list and an
    attribute mapping; the class names are a single name, an array of names
    or nothing, and are added through [classList.add]. *)
Inductive ClassNames :=
  | NoClass
  | OneClass (c : string)
  | ManyClasses (cs : list string).

Definition make (tag : string) (classNames : ClassNames)
    (attrs : gmap string AttrValue) (d : Document) : result (loc * Document) :=
  let '(el, d) := createElement tag d in
  let tokens := match classNames with
                | NoClass => []
                | OneClass c => [c]
                | ManyClasses cs => cs
                end in
  let* cl := DOMTokenList.add tokens [] in
  Ok (el, modify el (λ e, set_attributes (λ _, attrs) (set_classList (λ _, cl) e)) d).

(** ** The widget *)

(** [enum UiState] *)
Inductive UiState := Empty | Uploading | Filled.

Global Instance UiState_eq_dec : EqDecision UiState.
Proof. solve_decision. Defined.

Definition UiState_value (st : UiState) : string :=
  match st with
  | Empty => "empty"
  | Uploading => "uploading"
  | Filled => "filled"
  end.

(** The keys of the enum object, in the order [for ... in] visits them. *)
Definition UiState_keys : list UiState := [Empty; Uploading; Filled].

(** [interface Nodes]. [imagePreloader] and [caption] are always set by the
    constructor; they are optional here because [nodes] is a public field and
    the methods test them against [undefined]. *)
Record Nodes := mkNodes {
  wrapper : loc;
  imageContainer : loc;
  fileButton : loc;
  imageEl : option loc;
  imagePreloader : option loc;
  caption : option loc
}.

Definition set_imageEl (v : option loc) (n : Nodes) : Nodes :=
  mkNodes (wrapper n) (imageContainer n) (fileButton n) v (imagePreloader n) (caption n).

(** The part of the Editor.js API the class reads. *)
Record Styles := mkStyles {
  block : string;
  loader : string;
  input : string;
  button : string
}.

Record API := mkAPI {
  styles : Styles;
  i18n_t : string → string
}.

(** Modelled from the spec: [ImageConfig] and [ImageToolData] of
    [./types/types], which is not part of the sources at hand. The spec
    gives the recognised options [captionPlaceholder : string] and
    [buttonContent : string | undefined], and the render input
    [{ file?: { url: string, ... }, caption?: string }]; a file descriptor is
    a mapping from keys to strings. *)
Record ImageConfig := mkImageConfig {
  captionPlaceholder : string;
  buttonContent : option string
}.

Record ImageToolData := mkImageToolData {
  file : option (gmap string string);
  data_caption : option string
}.

Record ConstructorParams := mkParams {
  param_api : API;
  param_config : ImageConfig;
  param_readOnly : bool
}.

(** The state of a [Ui] object together with the nodes it has created.
    [selectFileCalls] counts the calls of the host's [onSelectFile]. *)
Record Ui := mkUi {
  api : API;
  config : ImageConfig;
  readOnly : bool;
  nodes : Nodes;
  document : Document;
  selectFileCalls : nat
}.

Definition set_nodes (f : Nodes → Nodes) (s : Ui) : Ui :=
  mkUi (api s) (config s) (readOnly s) (f (nodes s)) (document s) (selectFileCalls s).
Definition set_document (f : Document → Document) (s : Ui) : Ui :=
  mkUi (api s) (config s) (readOnly s) (nodes s) (f (document s)) (selectFileCalls s).
Definition set_selectFileCalls (f : nat → nat) (s : Ui) : Ui :=
  mkUi (api s) (config s) (readOnly s) (nodes s) (document s) (f (selectFileCalls s)).

(** [private get CSS()] *)
Module CSS.
Definition baseClass (a : API) : string := block (styles a).
Definition loading (a : API) : string := loader (styles a).
Definition input (a : API) : string := input (styles a).
Definition button (a : API) : string := button (styles a).
Definition wrapper : string := "image-tool".
Definition imageContainer : string := "image-tool__image".
Definition imagePreloader : string := "image-tool__image-preloader".
Definition imageEl : string := "image-tool__image-picture".
Definition caption : string := "image-tool__caption".
End CSS.

(** [`${this.CSS.wrapper}--${name}`] *)
Definition modifier (name : string) : string := CSS.wrapper +:+ "--" +:+ name.

(** [/\.mp4$/.test(url)]: the pattern is tried at every position of the
    input, and [$] (no [m] flag) matches at the end of the input only. *)
Fixpoint regex_mp4_test (url : string) : bool :=
  match url with
  | EmptyString => false
  | String _ rest => String.eqb url ".mp4" || regex_mp4_test rest
  end.

(** [toolData.file.url]; a descriptor without that key yields [undefined],
    which both [RegExp.prototype.test] and the [src] setter turn into the
    string ["undefined"]. *)
Definition file_url (f : gmap string string) : string :=
  default "undefined" (f !! "url").

Section Widget.

(** The icon markup imported from [@codexteam/icons]. *)
Variable IconPicture : string.

(** [private createFileButton()] *)
Definition createFileButton (a : API) (cfg : ImageConfig) (d : Document)
    : result (loc * Document) :=
  let* (button, d) := make "div" (ManyClasses [CSS.button a]) ∅ d in
  let content :=
    default (IconPicture +:+ " " +:+ i18n_t a "Select an Image") (buttonContent cfg) in
  let d := modify button (set_innerHTML content) d in
  let d := addEventListener button "click" SelectFileClick d in
  Ok (button, d).

(** [constructor({ api, config, onSelectFile, readOnly })]; the widget's
    nodes are the first ones of its store. *)
Definition constructor (p : ConstructorParams) : result Ui :=
  let a := param_api p in
  let cfg := param_config p in
  let d := empty_document in
  let* (wrapper, d) := make "div" (ManyClasses [CSS.baseClass a; CSS.wrapper]) ∅ d in
  let* (imageContainer, d) := make "div" (ManyClasses [CSS.imageContainer]) ∅ d in
  let* (fileButton, d) := createFileButton a cfg d in
  let* (imagePreloader, d) := make "div" (OneClass CSS.imagePreloader) ∅ d in
  let* (caption, d) := make "div" NoClass ∅ d in
  let d := modify caption (set_dataset <["placeholder" := captionPlaceholder cfg]>) d in
  let d := appendChild imageContainer imagePreloader d in
  let d := appendChild wrapper imageContainer d in
  (* this.nodes.wrapper.appendChild(this.nodes.caption) is commented out *)
  let d := appendChild wrapper fileButton d in
  Ok (mkUi a cfg (param_readOnly p)
           (mkNodes wrapper imageContainer fileButton None
                    (Some imagePreloader) (Some caption))
           d 0).

(** [public applyTune(tuneName, status)] *)
Definition applyTune (tuneName : string) (status : bool) (s : Ui) : result Ui :=
  let* d := classList_toggle (wrapper (nodes s)) (modifier tuneName) status (document s) in
  Ok (set_document (λ _, d) s).

(** [private toggleStatus(status)] *)
Definition toggleStatus (status : UiState) (s : Ui) : result Ui :=
  for_each (λ statusType s,
    let* d := classList_toggle (wrapper (nodes s))
                (modifier (UiState_value statusType))
                (bool_decide (status = statusType)) (document s) in
    Ok (set_document (λ _, d) s))
    UiState_keys s.

(** [public hidePreloader()] *)
Definition hidePreloader (s : Ui) : result Ui :=
  match imagePreloader (nodes s) with
  | None => Throw TypeError
  | Some preloader =>
      let s := set_document
                 (modify preloader (set_style (setProperty "backgroundImage" ""))) s in
      toggleStatus Empty s
  end.

(** [public fillImage(url)] *)
Definition fillImage (url : string) (s : Ui) : result Ui :=
  let tag := if regex_mp4_test url then "VIDEO" else "IMG" in
  let attrs : gmap string AttrValue := {[ "src" := AStr url ]} in
  let eventName := "load" in
  let '(attrs, eventName) :=
    if bool_decide (tag = "VIDEO")
    then (<["playsinline" := ABool true]>
            (<["muted" := ABool true]>
               (<["loop" := ABool true]>
                  (<["autoplay" := ABool true]> attrs))),
          "loadeddata")
    else (attrs, eventName) in
  let* (tempImageEl, d) := make tag (OneClass CSS.imageEl) attrs (document s) in
  let d := modify (fileButton (nodes s)) (set_style (setProperty "display" "none")) d in
  let d := modify (fileButton (nodes s)) (set_style (setProperty "pointerEvents" "none")) d in
  let d := addEventListener tempImageEl eventName (MediaReady tempImageEl) d in
  Ok (set_document (λ _, d) s).

(** The listener [fillImage] registers on [tempImageEl]. *)
Definition mediaReady (tempImageEl : loc) (s : Ui) : result Ui :=
  let* s :=
    match imageEl (nodes s) with
    | Some old =>
        let* d := removeChild (imageContainer (nodes s)) old (document s) in
        Ok (set_document (λ _, d) s)
    | None => Ok s
    end in
  let s := set_nodes (set_imageEl (Some tempImageEl)) s in
  let s := set_document (appendChild (imageContainer (nodes s)) tempImageEl) s in
  let* s := toggleStatus Filled s in
  Ok (match imagePreloader (nodes s) with
      | Some preloader =>
          set_document
            (modify preloader (set_style (setProperty "backgroundImage" ""))) s
      | None => s
      end).

(** [public render(toolData)]; the [console.log] call has no effect on the
    widget. *)
Definition render (toolData : ImageToolData) (s : Ui) : result (loc * Ui) :=
  let* s :=
    match file toolData with
    | None => toggleStatus Empty s
    | Some f =>
        if bool_decide (size f = 0) then toggleStatus Empty s
        else fillImage (file_url f) s
    end in
  Ok (wrapper (nodes s), s).

(** [public fillCaption(text)] *)
Definition fillCaption (text : string) (s : Ui) : result Ui :=
  match caption (nodes s) with
  | Some c => Ok (set_document (modify c (set_innerHTML text)) s)
  | None => Ok s
  end.

(** [public clearImage()] *)
Definition clearImage (s : Ui) : result Ui :=
  match imageEl (nodes s) with
  | Some imageElement =>
      let d := document s in
      let d := modify imageElement (set_attributes <["src" := AStr ""]>) d in
      let d := modify imageElement (set_style (setProperty "display" "none")) d in
      let d := modify (fileButton (nodes s)) (set_style (setProperty "display" "flex")) d in
      let d := modify (fileButton (nodes s)) (set_style (setProperty "pointerEvents" "auto")) d in
      Ok (set_document (λ _, d) s)
  | None => Ok s
  end.

(** ** Events *)

Definition run_listener (cb : Listener) (s : Ui) : result Ui :=
  match cb with
  | SelectFileClick => Ok (set_selectFileCalls S s)
  | MediaReady tempImageEl => mediaReady tempImageEl s
  end.

(** An event of the given type reaches [target]: the listeners registered
    for that type run in the order of their registration. *)
Definition dispatchEvent (target : loc) (type : string) (s : Ui) : result Ui :=
  for_each run_listener
    ((filter (λ l, l.1 = type) (listeners_of (document s) target)).*2) s.

(** ** Life of a widget *)

(** What the host and the environment can do to a constructed widget. *)
Inductive Call :=
  | CallApplyTune (tuneName : string) (status : bool)
  | CallRender (toolData : ImageToolData)
  | CallHidePreloader
  | CallFillImage (url : string)
  | CallFillCaption (text : string)
  | CallClearImage
  | Dispatch (target : loc) (type : string).

Definition step (c : Call) (s : Ui) : result Ui :=
  match c with
  | CallApplyTune tuneName status => applyTune tuneName status s
  | CallRender toolData => let* (_, s) := render toolData s in Ok s
  | CallHidePreloader => hidePreloader s
  | CallFillImage url => fillImage url s
  | CallFillCaption text => fillCaption text s
  | CallClearImage => clearImage s
  | Dispatch target type => dispatchEvent target type s
  end.

(** Construction followed by a sequence of calls, none of which throws. A
    call that throws leaves the widget as it was ([classList] validates
    before it mutates), so the states reached this way are all the states
    a widget can be in. *)
Definition run (p : ConstructorParams) (calls : list Call) : result Ui :=
  let* s := constructor p in for_each step calls s.

(** ** Observations *)

(** The [UiState]s whose class modifier is on the wrapper. *)
Definition active_states (s : Ui) : list UiState :=
  filter (λ st, modifier (UiState_value st) ∈ classes_of (document s) (wrapper (nodes s)))
         UiState_keys.

Definition is_media_tag (tag : string) : bool :=
  bool_decide (tag = "VIDEO" ∨ tag = "IMG").

(** The media elements among the children of the media container. *)
Definition attached_media (s : Ui) : list loc :=
  filter (λ l, is_media_tag (tag_of (document s) l) = true)
         (children_of (document s) (imageContainer (nodes s))).

(** The node is the child of no element of the store. *)
Definition off_tree (d : Document) (l : loc) : Prop :=
  ∀ a e, heap d !! a = Some e → l ∉ childNodes e.

End Widget.


(** ** The shape of a widget's store

    The five nodes of the skeleton are the first five of the store, in the
    order the constructor makes them; every later node is a media element
    made by [fillImage]. *)

Definition dataset_of (d : Document) (l : loc) (key : string) : option string :=
  e ← heap d !! l; dataset e !! key.

Record wf (s : Ui) : Prop := mk_wf {
  wf_wrapper : wrapper (nodes s) = 0;
  wf_imageContainer : imageContainer (nodes s) = 1;
  wf_fileButton : fileButton (nodes s) = 2;
  wf_imagePreloader : imagePreloader (nodes s) = Some 3;
  wf_caption : caption (nodes s) = Some 4;
  wf_next : 5 ≤ next (document s);
  wf_alloc : ∀ l, is_Some (heap (document s) !! l) ↔ l < next (document s);
  wf_wrapper_children : children_of (document s) 0 = [1; 2];
  wf_container_children :
    children_of (document s) 1 = 3 :: option_list (imageEl (nodes s));
  wf_leaves : ∀ l, 2 ≤ l → children_of (document s) l = [];
  wf_skeleton_tags : ∀ l, l < 5 → tag_of (document s) l = "DIV";
  wf_skeleton_listeners : ∀ l, l < 5 →
    listeners_of (document s) l
    = if decide (l = 2) then [("click", SelectFileClick)] else [];
  wf_media : ∀ l, 5 ≤ l → l < next (document s) →
    is_media_tag (tag_of (document s) l) = true
    ∧ ∃ ev, listeners_of (document s) l = [(ev, MediaReady l)];
  wf_imageEl : ∀ m, imageEl (nodes s) = Some m → 5 ≤ m ∧ m < next (document s);
  wf_placeholder :
    dataset_of (document s) 4 "placeholder" = Some (captionPlaceholder (config s))
}.

(** The store right after construction: the skeleton
    [<wrapper> <image-container> <image-preloader/> </image-container>
     <select-file-button/> </wrapper>] and the detached caption. *)
Definition skeleton (wrapperClasses buttonClasses : list string)
    (content placeholder : string) : Document :=
  mkDocument
    (<[0 := mkElement "DIV" wrapperClasses ∅ ∅ ∅ (ParsedFrom "") [1; 2] []]>
     (<[1 := mkElement "DIV" [CSS.imageContainer] ∅ ∅ ∅ (ParsedFrom "") [3] []]>
      (<[2 := mkElement "DIV" buttonClasses ∅ ∅ ∅ (ParsedFrom content) []
                        [("click", SelectFileClick)]]>
       (<[3 := mkElement "DIV" [CSS.imagePreloader] ∅ ∅ ∅ (ParsedFrom "") [] []]>
        (<[4 := mkElement "DIV" [] ∅ ∅ {[ "placeholder" := placeholder ]}
                          (ParsedFrom "") [] []]>
         ∅)))))
    5.

(** The class list [toggleStatus] leaves behind, as a function of the one
    it finds. *)
Definition status_classes (status : UiState) (cl : list string) : list string :=
  foldl (λ acc statusType,
           if bool_decide (status = statusType)
           then DOMTokenList.append_token (modifier (UiState_value statusType)) acc
           else DOMTokenList.remove_token (modifier (UiState_value statusType)) acc)
        cl UiState_keys.

(** The tune names that collide with the class modifier of a state. *)
Definition is_state_name (name : string) : bool :=
  bool_decide (name ∈ UiState_value <$> UiState_keys).

(** The calls made by the environment rather than by the host. *)
Definition is_dispatch (c : Call) : bool :=
  match c with Dispatch _ _ => true | _ => false end.

(** The calls that cannot put or take a state modifier by way of a tune. *)
Definition keeps_state_modifiers (c : Call) : bool :=
  match c with
  | CallApplyTune tuneName _ => negb (is_state_name tuneName)
  | _ => true
  end.

(** ** A concrete widget

    The class names are those of Editor.js; the translation function is the
    identity. *)
Definition demo_api : API :=
  mkAPI (mkStyles "cdx-block" "cdx-loader" "cdx-input" "cdx-button") (λ s, s).
Definition demo_params : ConstructorParams :=
  mkParams demo_api (mkImageConfig "Enter a caption" None) false.
Definition demo_icon : string := "<svg/>".

(** The state the concrete widget is in after the given calls. *)
Definition demo_state (calls : list Call) : Ui :=
  match run demo_icon demo_params calls with
  | Ok s => s
  | Throw _ =>
      mkUi demo_api (param_config demo_params) false
           (mkNodes 0 1 2 None None None) empty_document 0
  end.

(** Freshly constructed; with the border tune on; after [hidePreloader];
    with an image loaded; with an image loaded and a video requested. *)
Definition demo_fresh : Ui := demo_state [].
Definition demo_tuned : Ui := demo_state [CallApplyTune "border" true].
Definition demo_empty : Ui := demo_state [CallHidePreloader].
Definition demo_loaded : Ui :=
  demo_state [CallFillImage "https://x/a.png"; Dispatch 5 "load"].
Definition demo_pending : Ui :=
  demo_state [CallFillImage "https://x/a.png"; Dispatch 5 "load";
              CallFillImage "https://x/b.mp4"].

(** An image loaded, and a placeholder image put on the preloader by the
    host, to which [nodes] is public. *)
Definition demo_preloading : Ui :=
  set_document
    (modify 3 (set_style (setProperty "backgroundImage" "url(https://x/a.png)")))
    demo_loaded.

(** ** Further observations *)

(** The call is a [click] on the given button. *)
Definition is_click (c : Call) (button : loc) : bool :=
  match c with
  | Dispatch target type => bool_decide (target = button ∧ type = "click")
  | _ => false
  end.

Definition is_clearImage (c : Call) : bool :=
  match c with CallClearImage => true | _ => false end.

(** The call is [applyTune("uploading", true)]. *)
Definition sets_uploading (c : Call) : bool :=
  match c with
  | CallApplyTune tuneName status =>
      bool_decide (tuneName = UiState_value Uploading) && status
  | _ => false
  end.

(** The nodes the parser made inside an element. *)
Definition content_of (d : Document) (l : loc) : Fragment :=
  from_option fragment (ParsedFrom "") (heap d !! l).

(** The text of the last [fillCaption] among the calls, if there is one. *)
Fixpoint last_caption (calls : list Call) (current : string) : string :=
  match calls with
  | [] => current
  | CallFillCaption text :: calls' => last_caption calls' text
  | _ :: calls' => last_caption calls' current
  end.

(** The preloader as the constructor makes it. *)
Definition preloader_element : Element :=
  mkElement "DIV" [CSS.imagePreloader] ∅ ∅ ∅ (ParsedFrom "") [] [].

(** The same widget with another read-only flag. *)
Definition set_readOnly (b : bool) (s : Ui) : Ui :=
  mkUi (api s) (config s) b (nodes s) (document s) (selectFileCalls s).

Definition result_map {A B} (f : A → B) (r : result A) : result B :=
  match r with
  | Ok a => Ok (f a)
  | Throw e => Throw e
  end.

(** Two requests pending; an image loaded and cleared; two captions set;
    two clicks on the button. *)
Definition demo_two_pending : Ui :=
  demo_state [CallFillImage "https://x/a.png"; CallFillImage "https://x/b.mp4"].
Definition demo_cleared : Ui :=
  demo_state [CallFillImage "https://x/a.png"; Dispatch 5 "load"; CallClearImage].
Definition demo_captioned : Ui :=
  demo_state [CallFillCaption "first"; CallFillImage "https://x/a.png";
              CallFillCaption "<b>second</b>"].
Definition demo_clicked : Ui :=
  demo_state [Dispatch 2 "click"; Dispatch 2 "load"; CallHidePreloader;
              Dispatch 2 "click"].

(** * Properties *)

(** ** Fallible computations *)

Lemma result_bind_Ok {A B} (c : result A) (k : A → result B) (b : B) :
  result_bind c k = Ok b ↔ ∃ a, c = Ok a ∧ k a = Ok b.
Proof.
  destruct c as [a|e]; simpl; split.
  - eauto.
  - by intros (a' & [= <-] & ?).
  - done.
  - by intros (a' & ? & ?).
Qed.

Ltac inv_bind :=
  repeat match goal with
  | H : result_bind _ _ = Ok _ |- _ =>
      apply result_bind_Ok in H; destruct H as (? & ? & H)
  | H : Ok _ = Ok _ |- _ => injection H as H
  | H : Throw _ = Ok _ |- _ => discriminate H
  end.

(** ** Tokens *)

Lemma elem_of_append_token (t x : string) (l : list string) :
  x ∈ DOMTokenList.append_token t l ↔ x = t ∨ x ∈ l.
Proof.
  unfold DOMTokenList.append_token. case_bool_decide.
  - split; [by right | intros [->|]; done].
  - rewrite elem_of_app, list_elem_of_singleton. tauto.
Qed.

Lemma elem_of_remove_token (t x : string) (l : list string) :
  x ∈ DOMTokenList.remove_token t l ↔ x ≠ t ∧ x ∈ l.
Proof. unfold DOMTokenList.remove_token. by rewrite list_elem_of_filter. Qed.

Lemma remove_token_absent (t : string) (l : list string) :
  t ∉ l → DOMTokenList.remove_token t l = l.
Proof.
  intros Hnin. unfold DOMTokenList.remove_token.
  induction l as [|x l IH]; [done|].
  apply not_elem_of_cons in Hnin as [Hne Hnin].
  rewrite filter_cons_True by done. by rewrite IH.
Qed.

Lemma remove_append_token (t : string) (l : list string) :
  DOMTokenList.remove_token t (DOMTokenList.append_token t l)
  = DOMTokenList.remove_token t l.
Proof.
  unfold DOMTokenList.append_token. case_bool_decide; [done|].
  unfold DOMTokenList.remove_token. rewrite filter_app.
  rewrite filter_cons_False by (intros Hne; by apply Hne).
  by rewrite filter_nil, app_nil_r.
Qed.

Lemma has_whitespace_app (a b : string) :
  DOMTokenList.has_whitespace (a +:+ b)
  = DOMTokenList.has_whitespace a || DOMTokenList.has_whitespace b.
Proof.
  induction a as [|c a IH]; simpl; [done|]. rewrite IH. by rewrite orb_assoc.
Qed.

Lemma validate_modifier (name : string) :
  DOMTokenList.validate (modifier name)
  = if DOMTokenList.has_whitespace name then Throw InvalidCharacterError else Ok tt.
Proof.
  unfold DOMTokenList.validate, modifier.
  rewrite bool_decide_eq_false_2 by done.
  by rewrite 2!has_whitespace_app.
Qed.

Lemma validate_state_modifier (st : UiState) :
  DOMTokenList.validate (modifier (UiState_value st)) = Ok tt.
Proof. by destruct st. Qed.

Lemma modifier_inj (a b : string) : modifier a = modifier b → a = b.
Proof. unfold modifier, CSS.wrapper. cbn. intros H. by simplify_eq. Qed.

(** ** The pattern [/\.mp4$/] *)

Lemma regex_mp4_test_spec (url : string) :
  regex_mp4_test url = true ↔ ∃ p, url = p +:+ ".mp4".
Proof.
  induction url as [|c url IH].
  - split; [done|]. intros [[|? ?] H]; discriminate H.
  - cbn [regex_mp4_test]. rewrite orb_true_iff, IH, String.eqb_eq. split.
    + intros [-> | [p ->]]; [by exists "" | by exists (String c p)].
    + intros [[|c' p] H]; [by left|]. right. exists p. by injection H.
Qed.

(** ** The node store *)

Lemma lookup_modify (l l' : loc) (f : Element → Element) (d : Document) :
  heap (modify l f d) !! l'
  = if decide (l = l') then f <$> heap d !! l' else heap d !! l'.
Proof.
  unfold modify; simpl. rewrite lookup_alter.
  case_decide; [by subst | done].
Qed.

Lemma lookup_appendChild (parent child l : loc) (d : Document) :
  heap (appendChild parent child d) !! l
  = (if decide (parent = l) then set_childNodes (λ cs, cs ++ [child]) else id)
      <$> (detach child <$> heap d !! l).
Proof.
  unfold appendChild; simpl. rewrite lookup_alter.
  case_decide; subst; rewrite lookup_fmap; [done | by destruct (heap d !! l)].
Qed.

Lemma modify_modify (l : loc) (f g : Element → Element) (d : Document) :
  modify l f (modify l g d) = modify l (f ∘ g) d.
Proof. unfold modify; simpl. by rewrite alter_alter_eq. Qed.

(** An observation of an element is not changed by a mutation that keeps
    the observed field. *)
Lemma observe_modify {A} (p : Element → A) (dflt : A) (l l' : loc)
    (f : Element → Element) (d : Document) :
  (∀ e, p (f e) = p e) →
  from_option p dflt (heap (modify l f d) !! l') = from_option p dflt (heap d !! l').
Proof.
  intros Hp. rewrite lookup_modify. case_decide; [|done].
  destruct (heap d !! l'); simpl; [apply Hp | done].
Qed.

Lemma children_of_modify l l' f d :
  (∀ e, childNodes (f e) = childNodes e) →
  children_of (modify l f d) l' = children_of d l'.
Proof. apply observe_modify. Qed.

Lemma tag_of_modify l l' f d :
  (∀ e, tagName (f e) = tagName e) → tag_of (modify l f d) l' = tag_of d l'.
Proof. apply observe_modify. Qed.

Lemma listeners_of_modify l l' f d :
  (∀ e, listeners (f e) = listeners e) →
  listeners_of (modify l f d) l' = listeners_of d l'.
Proof. apply observe_modify. Qed.

Lemma classes_of_modify l l' f d :
  (∀ e, classList (f e) = classList e) →
  classes_of (modify l f d) l' = classes_of d l'.
Proof. apply observe_modify. Qed.

Lemma dataset_of_modify l l' key f d :
  (∀ e, dataset (f e) = dataset e) →
  dataset_of (modify l f d) l' key = dataset_of d l' key.
Proof.
  intros Hp. unfold dataset_of. rewrite lookup_modify. case_decide; [|done].
  destruct (heap d !! l'); simpl; [by rewrite Hp | done].
Qed.

Lemma style_of_modify_ne l l' prop f d :
  l ≠ l' → style_of (modify l f d) l' prop = style_of d l' prop.
Proof. intros Hne. unfold style_of. rewrite lookup_modify. by case_decide. Qed.

Lemma style_of_setProperty l prop value d :
  is_Some (heap d !! l) →
  style_of (modify l (set_style (setProperty prop value)) d) l prop = value.
Proof.
  intros [e He]. unfold style_of. rewrite lookup_modify, decide_True by done.
  rewrite He; simpl. unfold setProperty. case_bool_decide as Hv.
  - by rewrite lookup_delete_eq.
  - by rewrite lookup_insert_eq.
Qed.

Lemma style_of_setProperty_ne l prop prop' value d :
  prop ≠ prop' →
  style_of (modify l (set_style (setProperty prop value)) d) l prop'
  = style_of d l prop'.
Proof.
  intros Hne. unfold style_of. rewrite lookup_modify, decide_True by done.
  destruct (heap d !! l) as [e|]; simpl; [|done].
  unfold setProperty. case_bool_decide.
  - by rewrite lookup_delete_ne.
  - by rewrite lookup_insert_ne.
Qed.

Lemma is_Some_lookup_modify l l' f d :
  is_Some (heap (modify l f d) !! l') ↔ is_Some (heap d !! l').
Proof.
  rewrite lookup_modify. case_decide; [|done]. by rewrite fmap_is_Some.
Qed.

(** ** Mutations that keep the tree *)

(** A mutation of one element that touches neither its children, its tag,
    its listeners nor its data attributes keeps the shape of the store. *)
Lemma wf_modify (s : Ui) (l : loc) (f : Element → Element) :
  (∀ e, childNodes (f e) = childNodes e) →
  (∀ e, tagName (f e) = tagName e) →
  (∀ e, listeners (f e) = listeners e) →
  (∀ e, dataset (f e) = dataset e) →
  wf s → wf (set_document (modify l f) s).
Proof.
  intros Hc Ht Hl Hd [].
  split; unfold set_document; cbn [document nodes config]; try done.
  - intros l'. by rewrite is_Some_lookup_modify.
  - by rewrite children_of_modify.
  - by rewrite children_of_modify.
  - intros l' ?. rewrite children_of_modify; auto.
  - intros l' ?. rewrite tag_of_modify; auto.
  - intros l' ?. rewrite listeners_of_modify; auto.
  - intros l' ??. rewrite tag_of_modify, listeners_of_modify; auto.
  - by rewrite dataset_of_modify.
Qed.

(** ** Class toggling *)

Lemma applyTune_eq (tuneName : string) (status : bool) (s : Ui) :
  applyTune tuneName status s
  = if DOMTokenList.has_whitespace tuneName then Throw InvalidCharacterError
    else Ok (set_document
               (modify (wrapper (nodes s)) (set_classList (λ cl,
                  if status then DOMTokenList.append_token (modifier tuneName) cl
                  else DOMTokenList.remove_token (modifier tuneName) cl))) s).
Proof.
  unfold applyTune, classList_toggle. rewrite validate_modifier.
  by destruct (DOMTokenList.has_whitespace tuneName).
Qed.

Lemma toggleStatus_eq (status : UiState) (s : Ui) :
  toggleStatus status s
  = Ok (set_document
          (modify (wrapper (nodes s)) (set_classList (status_classes status))) s).
Proof.
  unfold toggleStatus, UiState_keys, for_each, classList_toggle.
  rewrite !validate_state_modifier. cbn [result_bind].
  unfold set_document; cbn [nodes document api config readOnly selectFileCalls].
  by rewrite !modify_modify.
Qed.

Lemma elem_of_status_classes (status : UiState) (cl : list string) (x : string) :
  x ∈ status_classes status cl
  ↔ x = modifier (UiState_value status)
    ∨ (x ∈ cl ∧ ∀ st, x ≠ modifier (UiState_value st)).
Proof.
  assert (Hdiff : ∀ a b, a ≠ b → modifier (UiState_value a) ≠ modifier (UiState_value b)).
  { intros a b Hab Heq. apply modifier_inj in Heq. by destruct a, b. }
  unfold status_classes, UiState_keys; cbn [foldl].
  destruct (decide (x = modifier (UiState_value status))) as [->|Hne];
    destruct status; repeat case_bool_decide; try done;
    rewrite ?elem_of_append_token, ?elem_of_remove_token, ?elem_of_append_token,
      ?elem_of_remove_token, ?elem_of_append_token;
    (split; [intros Hx | intros [Heq | [Hcl Hst]]]);
    try (by left); try done;
    try (by auto 10);
    try (right; split; [tauto | intros []; tauto]);
    try (pose proof (Hst Empty); pose proof (Hst Uploading); pose proof (Hst Filled);
         tauto).
Qed.

Lemma active_states_status_classes (status : UiState) (cl : list string) (s : Ui) :
  classes_of (document s) (wrapper (nodes s)) = status_classes status cl →
  active_states s = [status].
Proof.
  intros Hcl. unfold active_states. rewrite Hcl.
  assert (Hin : ∀ st, modifier (UiState_value st) ∈ status_classes status cl
                      ↔ st = status).
  { intros st. rewrite elem_of_status_classes. split.
    - intros [Heq | [_ Hne]].
      + apply modifier_inj in Heq. by destruct st, status.
      + by destruct (Hne st).
    - intros ->. by left. }
  unfold UiState_keys.
  destruct status;
    repeat (first [ rewrite filter_cons_True by (by apply Hin)
                  | rewrite filter_cons_False by (by rewrite Hin) ]);
    by rewrite filter_nil.
Qed.

(** ** Making elements *)

Lemma lookup_createElement (tag : string) (d : Document) (l : loc) :
  heap (createElement tag d).2 !! l
  = if decide (next d = l)
    then Some (mkElement (to_upper tag) [] ∅ ∅ ∅ (ParsedFrom "") [] [])
    else heap d !! l.
Proof. unfold createElement; simpl. by rewrite lookup_insert. Qed.

Lemma make_Ok (tag : string) (classNames : ClassNames)
    (attrs : gmap string AttrValue) (d : Document) (l : loc) (d' : Document) :
  make tag classNames attrs d = Ok (l, d') →
  ∃ cl, l = next d
        ∧ d' = modify (next d)
                 (λ e, set_attributes (λ _, attrs) (set_classList (λ _, cl) e))
                 (createElement tag d).2.
Proof.
  unfold make, createElement. cbn [fst snd]. intros H. inv_bind.
  subst. eauto.
Qed.

(** The readiness signal, the tag and the properties [fillImage] chooses. *)
Lemma fillImage_eq (url : string) (s : Ui) :
  fillImage url s
  = Ok (set_document (λ d,
          addEventListener (next d)
            (if regex_mp4_test url then "loadeddata" else "load")
            (MediaReady (next d))
            (modify (fileButton (nodes s)) (set_style (setProperty "pointerEvents" "none"))
               (modify (fileButton (nodes s)) (set_style (setProperty "display" "none"))
                  (modify (next d)
                     (λ e, set_attributes
                             (λ _, if regex_mp4_test url
                                   then <["playsinline" := ABool true]>
                                          (<["muted" := ABool true]>
                                             (<["loop" := ABool true]>
                                                (<["autoplay" := ABool true]>
                                                   {[ "src" := AStr url ]})))
                                   else {[ "src" := AStr url ]})
                             (set_classList (λ _, [CSS.imageEl]) e))
                     (createElement (if regex_mp4_test url then "VIDEO" else "IMG") d).2))))
          s).
Proof. unfold fillImage. by destruct (regex_mp4_test url). Qed.

(** ** The shape of the store is kept by every call *)

Ltac look :=
  unfold children_of, tag_of, listeners_of, classes_of, dataset_of, style_of,
    addEventListener, modify, appendChild, createElement, skeleton;
  cbn [heap next fst snd];
  repeat first [ rewrite lookup_alter | rewrite lookup_insert | rewrite lookup_fmap
               | rewrite lookup_empty ];
  repeat (case_decide; try lia); simplify_eq.

Ltac observers :=
  unfold children_of, tag_of, listeners_of, classes_of, dataset_of, style_of in *.

Lemma constructor_Ok (IconPicture : string) (p : ConstructorParams) (s : Ui) :
  constructor IconPicture p = Ok s →
  ∃ wrapperClasses buttonClasses,
    DOMTokenList.add [CSS.baseClass (param_api p); CSS.wrapper] [] = Ok wrapperClasses
    ∧ DOMTokenList.add [CSS.button (param_api p)] [] = Ok buttonClasses
    ∧ s = mkUi (param_api p) (param_config p) (param_readOnly p)
            (mkNodes 0 1 2 None (Some 3) (Some 4))
            (skeleton wrapperClasses buttonClasses
               (default (IconPicture +:+ " " +:+ i18n_t (param_api p) "Select an Image")
                        (buttonContent (param_config p)))
               (captionPlaceholder (param_config p)))
            0.
Proof.
  unfold constructor, createFileButton, make.
  destruct (DOMTokenList.add [CSS.baseClass (param_api p); CSS.wrapper] [])
    as [cl0|]; [|done].
  cbn [result_bind createElement fst snd empty_document next].
  change (DOMTokenList.add [CSS.imageContainer] [])
    with (Ok (A:=list string) [CSS.imageContainer]).
  cbn [result_bind createElement fst snd modify next].
  destruct (DOMTokenList.add [CSS.button (param_api p)] []) as [cl2|]; [|done].
  cbn [result_bind createElement fst snd modify next addEventListener].
  change (DOMTokenList.add [CSS.imagePreloader] [])
    with (Ok (A:=list string) [CSS.imagePreloader]).
  change (DOMTokenList.add [] []) with (Ok (A:=list string) []).
  cbn [result_bind createElement fst snd modify next addEventListener].
  intros [= <-]. exists cl0, cl2. split; [done|]. split; [done|].
  unfold skeleton. vm_compute. reflexivity.
Qed.

Lemma wf_constructor (IconPicture : string) (p : ConstructorParams) (s : Ui) :
  constructor IconPicture p = Ok s → wf s.
Proof.
  intros (cl0 & cl2 & _ & _ & ->)%constructor_Ok.
  split; cbn [document nodes config imageEl option_list]; try done.
  - intros l. look; try (split; [lia | by eauto]). split; [by intros [? ?] | lia].
  - intros l Hl. by look.
  - intros l Hl. by look.
  - intros l Hl. by look.
  - intros l Hl1 Hl2. unfold skeleton in Hl2; simpl in Hl2. lia.
Qed.

Lemma wf_fillImage (url : string) (s s' : Ui) :
  wf s → fillImage url s = Ok s' → wf s'.
Proof.
  intros Hwf. rewrite fillImage_eq. intros [= <-].
  destruct Hwf as [Hw Hc Hb Hp Hk Hn Ha Hwc Hcc Hlv Htg Hls Hmd Him Hph].
  rewrite Hb. observers.
  split; unfold set_document; cbn [document nodes config]; try done.
  - unfold addEventListener, modify, createElement; simpl; lia.
  - intros l. look; rewrite ?fmap_is_Some, ?Ha; try lia.
    split; [lia | eauto].
  - look. done.
  - look. done.
  - intros l Hl. look.
    + done.
    + specialize (Hlv 2 Hl). destruct (heap (document s) !! 2); simpl in *; done.
    + auto.
  - intros l Hl. look.
    + specialize (Htg 2 Hl). destruct (heap (document s) !! 2); simpl in *; done.
    + auto.
  - intros l Hl. look.
    + specialize (Hls 2 Hl). destruct (heap (document s) !! 2); simpl in *; done.
    + rewrite Hls by done. by case_decide.
  - intros l Hl1 Hl2. look.
    + simpl. split; [by destruct (regex_mp4_test url) | eauto].
    + apply Hmd; [done | unfold addEventListener, modify in Hl2; simpl in Hl2; lia].
  - intros m Hm. apply Him in Hm. unfold addEventListener, modify; simpl. lia.
  - look. done.
Qed.

Ltac filters :=
  repeat first
    [ rewrite filter_cons_True by lia
    | rewrite filter_cons_False by lia
    | rewrite filter_nil ].

Lemma mediaReady_eq (t : loc) (s : Ui) :
  wf s →
  mediaReady t s
  = Ok (set_document (λ d,
          modify 3 (set_style (setProperty "backgroundImage" ""))
            (modify 0 (set_classList (status_classes Filled))
               (appendChild 1 t
                  (match imageEl (nodes s) with
                   | Some old => modify 1 (set_childNodes (filter (λ x, x ≠ old))) d
                   | None => d
                   end))))
          (set_nodes (set_imageEl (Some t)) s)).
Proof.
  intros [Hw Hc Hb Hp Hk Hn Ha Hwc Hcc Hlv Htg Hls Hmd Him Hph].
  unfold mediaReady, removeChild. rewrite Hc.
  destruct (imageEl (nodes s)) as [old|] eqn:Hold.
  - rewrite Hcc. rewrite bool_decide_eq_true_2 by (simpl; rewrite !elem_of_cons; auto).
    cbn [result_bind]. rewrite toggleStatus_eq. cbn [result_bind].
    unfold set_document, set_nodes, set_imageEl;
      cbn [nodes document api config readOnly selectFileCalls wrapper imageContainer
           fileButton imageEl imagePreloader caption].
    by rewrite Hw, Hc, Hp.
  - cbn [result_bind]. rewrite toggleStatus_eq. cbn [result_bind].
    unfold set_document, set_nodes, set_imageEl;
      cbn [nodes document api config readOnly selectFileCalls wrapper imageContainer
           fileButton imageEl imagePreloader caption].
    by rewrite Hw, Hc, Hp.
Qed.

Ltac case_heap :=
  match goal with
  | |- context [heap ?d !! ?l] => destruct (heap d !! l); simpl in *
  end.

Lemma wf_mediaReady (t : loc) (s s' : Ui) :
  wf s → 5 ≤ t → t < next (document s) → mediaReady t s = Ok s' → wf s'.
Proof.
  intros Hwf Ht1 Ht2. rewrite mediaReady_eq by done. intros [= <-].
  destruct Hwf as [Hw Hc Hb Hp Hk Hn Ha Hwc Hcc Hlv Htg Hls Hmd Him Hph].
  observers.
  assert (Hold : ∀ old, imageEl (nodes s) = Some old → 5 ≤ old) by (intros ? ?%Him; lia).
  destruct (imageEl (nodes s)) as [old|];
    [specialize (Hold old eq_refl) | clear Hold];
  (split; unfold set_document, set_nodes, set_imageEl;
    cbn [document nodes config wrapper imageContainer fileButton imageEl
         imagePreloader caption option_list]; try done;
   [ intros l; look; rewrite ?fmap_is_Some; apply Ha
   | look; case_heap; [|done]; rewrite Hwc; by filters
   | look; case_heap; [|done]; rewrite Hcc; by filters
   | intros l Hl; pose proof (Hlv l Hl) as Hl'; look; case_heap; try done;
     rewrite Hl'; by filters
   | intros l Hl; pose proof (Htg l Hl); look; by case_heap
   | intros l Hl; pose proof (Hls l Hl); look; by case_heap
   | intros l Hl1 Hl2; unfold modify, appendChild in Hl2; cbn [next] in Hl2;
     pose proof (Hmd l Hl1 Hl2); look; by case_heap
   | intros m [= <-]; unfold modify, appendChild; cbn [next]; lia
   | look; by case_heap ]).
Qed.

Lemma for_each_invariant {A S} (P : S → Prop) (body : A → S → result S)
    (l : list A) (s s' : S) :
  (∀ x s s', P s → body x s = Ok s' → P s') →
  P s → for_each body l s = Ok s' → P s'.
Proof.
  intros Hbody. revert s. induction l as [|x l IH]; intros s Hs; simpl.
  - by intros [= <-].
  - intros H. inv_bind. eauto.
Qed.

Lemma dispatchEvent_skeleton (target : loc) (type : string) (s : Ui) :
  wf s → target < 5 →
  dispatchEvent target type s
  = if decide (target = 2 ∧ type = "click") then Ok (set_selectFileCalls S s) else Ok s.
Proof.
  intros Hwf Ht. unfold dispatchEvent. rewrite (wf_skeleton_listeners s Hwf) by done.
  destruct (decide (target = 2)) as [->|].
  - rewrite filter_cons, filter_nil. cbn [fst].
    destruct (decide ("click" = type)) as [<-|]; simpl.
    + done.
    + rewrite decide_False; [done | intros [_ ->]; done].
  - rewrite filter_nil. simpl. rewrite decide_False; [done | intros [? _]; done].
Qed.

Lemma dispatchEvent_unallocated (target : loc) (type : string) (s : Ui) :
  wf s → next (document s) ≤ target → dispatchEvent target type s = Ok s.
Proof.
  intros Hwf Ht. unfold dispatchEvent, listeners_of.
  destruct (heap (document s) !! target) as [e|] eqn:He; [|done].
  assert (target < next (document s)); [|lia].
  apply (wf_alloc s Hwf). eauto.
Qed.

Lemma dispatchEvent_media (target : loc) (type : string) (s : Ui) :
  wf s → 5 ≤ target → target < next (document s) →
  ∃ ev, listeners_of (document s) target = [(ev, MediaReady target)]
        ∧ dispatchEvent target type s
          = if decide (ev = type) then mediaReady target s else Ok s.
Proof.
  intros Hwf Ht1 Ht2.
  destruct (wf_media s Hwf target Ht1 Ht2) as [_ [ev Hev]].
  exists ev. split; [done|]. unfold dispatchEvent. rewrite Hev.
  rewrite filter_cons, filter_nil. simpl.
  case_decide; simpl; [|done]. by destruct (mediaReady target s).
Qed.

Lemma wf_set_selectFileCalls (f : nat → nat) (s : Ui) :
  wf s → wf (set_selectFileCalls f s).
Proof. by intros []. Qed.

Lemma wf_dispatchEvent (target : loc) (type : string) (s s' : Ui) :
  wf s → dispatchEvent target type s = Ok s' → wf s'.
Proof.
  intros Hwf.
  destruct (decide (target < 5)) as [Hlt|Hge].
  - rewrite dispatchEvent_skeleton by done.
    case_decide; intros [= <-]; [by apply wf_set_selectFileCalls | done].
  - destruct (decide (target < next (document s))) as [Hlt|Hge'].
    + destruct (dispatchEvent_media target type s) as (ev & _ & ->); [done|lia|done|].
      case_decide; [apply wf_mediaReady; [done|lia|done] | by intros [= <-]].
    + rewrite dispatchEvent_unallocated by (done || lia). by intros [= <-].
Qed.

Lemma wf_toggleStatus (status : UiState) (s s' : Ui) :
  wf s → toggleStatus status s = Ok s' → wf s'.
Proof. intros Hwf. rewrite toggleStatus_eq. intros [= <-]. by apply wf_modify. Qed.

(** Writing the caption's content: the caption has no appended children to
    lose. *)
Lemma wf_set_caption (text : string) (s : Ui) :
  wf s → wf (set_document (modify 4 (set_innerHTML text)) s).
Proof.
  intros [Hw Hc Hb Hp Hk Hn Ha Hwc Hcc Hlv Htg Hls Hmd Him Hph]. observers.
  split; unfold set_document; cbn [document nodes config]; try done;
    [ intros l; look; rewrite ?fmap_is_Some; apply Ha
    | look; by case_heap
    | look; by case_heap
    | intros l Hl; pose proof (Hlv l Hl); look; by case_heap
    | intros l Hl; pose proof (Htg l Hl); look; by case_heap
    | intros l Hl; pose proof (Hls l Hl); look; by case_heap
    | intros l Hl1 Hl2; unfold modify in Hl2; cbn [next] in Hl2;
      pose proof (Hmd l Hl1 Hl2); look; by case_heap
    | look; by case_heap ].
Qed.

Lemma wf_step (c : Call) (s s' : Ui) : wf s → step c s = Ok s' → wf s'.
Proof.
  intros Hwf. destruct c as [tuneName status|toolData| |url|text| |target type];
    cbn [step].
  - rewrite applyTune_eq. case_match; [done|]. intros [= <-]. by apply wf_modify.
  - unfold render. intros H.
    apply result_bind_Ok in H as ([r s1] & H1 & [= <-]).
    apply result_bind_Ok in H1 as (s2 & H2 & [= _ <-]).
    destruct (file toolData) as [f|]; [case_bool_decide|];
      [ by eapply wf_toggleStatus | by eapply wf_fillImage
      | by eapply wf_toggleStatus ].
  - unfold hidePreloader. rewrite (wf_imagePreloader s Hwf).
    apply wf_toggleStatus. by apply wf_modify.
  - by apply wf_fillImage.
  - unfold fillCaption. rewrite (wf_caption s Hwf). intros [= <-].
    by apply wf_set_caption.
  - unfold clearImage. destruct (imageEl (nodes s)) as [m|]; intros [= <-]; [|done].
    change (wf (set_document (modify (fileButton (nodes s)) (set_style (setProperty "pointerEvents" "auto")))
           (set_document (modify (fileButton (nodes s)) (set_style (setProperty "display" "flex")))
           (set_document (modify m (set_style (setProperty "display" "none")))
           (set_document (modify m (set_attributes <["src" := AStr ""]>)) s))))).
    by repeat apply wf_modify.
  - by apply wf_dispatchEvent.
Qed.

Lemma wf_run (IconPicture : string) (p : ConstructorParams) (calls : list Call) (s : Ui) :
  run IconPicture p calls = Ok s → wf s.
Proof.
  unfold run. intros H. inv_bind.
  eapply (for_each_invariant wf); [apply wf_step | | done].
  by eapply wf_constructor.
Qed.

(** In a reachable state a call throws only when [applyTune] is given a tune
    name with white space in it, and nothing has been mutated by then. *)
Lemma step_throws (c : Call) (s : Ui) (e : DOMException) :
  wf s → step c s = Throw e →
  ∃ tuneName status,
    c = CallApplyTune tuneName status
    ∧ DOMTokenList.has_whitespace tuneName = true.
Proof.
  intros Hwf. destruct c as [tuneName status|toolData| |url|text| |target type];
    cbn [step].
  - rewrite applyTune_eq. case_match; [eauto | done].
  - unfold render.
    destruct (file toolData) as [f|]; [case_bool_decide|];
      by rewrite ?toggleStatus_eq, ?fillImage_eq.
  - unfold hidePreloader. rewrite (wf_imagePreloader s Hwf).
    by rewrite toggleStatus_eq.
  - by rewrite fillImage_eq.
  - unfold fillCaption. by destruct (caption (nodes s)).
  - unfold clearImage. by destruct (imageEl (nodes s)).
  - destruct (decide (target < 5)) as [Hlt|Hge].
    { rewrite dispatchEvent_skeleton by done. by case_decide. }
    destruct (decide (target < next (document s))) as [Hlt|Hge'].
    2: { by rewrite dispatchEvent_unallocated by (done || lia). }
    destruct (dispatchEvent_media target type s) as (ev' & Hev & ->); [done|lia|done|].
    case_decide; [|done]. by rewrite mediaReady_eq.
Qed.

(** ** What the store looks like in a reachable state *)

Lemma attached_media_wf (s : Ui) :
  wf s → attached_media s = option_list (imageEl (nodes s)).
Proof.
  intros Hwf. unfold attached_media.
  rewrite (wf_imageContainer s Hwf), (wf_container_children s Hwf).
  rewrite filter_cons_False
    by (rewrite (wf_skeleton_tags s Hwf) by lia; done).
  destruct (imageEl (nodes s)) as [m|] eqn:Hm; simpl; [|done].
  destruct (wf_imageEl s Hwf m Hm) as [Hm1 Hm2].
  destruct (wf_media s Hwf m Hm1 Hm2) as [Htag _].
  by rewrite filter_cons_True, filter_nil.
Qed.

Lemma children_of_Some (d : Document) (a : loc) (e : Element) :
  heap d !! a = Some e → children_of d a = childNodes e.
Proof. intros He. unfold children_of. by rewrite He. Qed.

Lemma off_tree_wf (s : Ui) (l : loc) :
  wf s → l ≠ 1 → l ≠ 2 → l ≠ 3 → imageEl (nodes s) ≠ Some l →
  off_tree (document s) l.
Proof.
  intros Hwf H1 H2 H3 Him a e He Hin.
  apply children_of_Some in He. rewrite <- He in Hin.
  destruct (decide (a = 0)) as [->|].
  { rewrite (wf_wrapper_children s Hwf) in Hin.
    rewrite !elem_of_cons, elem_of_nil in Hin. lia. }
  destruct (decide (a = 1)) as [->|].
  { rewrite (wf_container_children s Hwf) in Hin.
    destruct (imageEl (nodes s)); simpl in Hin;
      rewrite !elem_of_cons, elem_of_nil in Hin;
      destruct_or?; (lia || congruence). }
  rewrite (wf_leaves s Hwf) in Hin by lia. by apply elem_of_nil in Hin.
Qed.

Lemma contains_off_tree (d : Document) (a c : loc) :
  off_tree d c → contains d a c → a = c.
Proof.
  intros Hoff Hc. induction Hc as [a|a e b c He Hb Hbc IH]; [done|].
  specialize (IH Hoff). subst b. by destruct (Hoff a e He).
Qed.

Lemma nodes_toggleStatus status s s' :
  toggleStatus status s = Ok s' → nodes s' = nodes s.
Proof. rewrite toggleStatus_eq. by intros [= <-]. Qed.

Lemma nodes_fillImage url s s' : fillImage url s = Ok s' → nodes s' = nodes s.
Proof. rewrite fillImage_eq. by intros [= <-]. Qed.

Lemma nodes_step (c : Call) (s s' : Ui) :
  is_dispatch c = false → step c s = Ok s' → nodes s' = nodes s.
Proof.
  intros Hc. destruct c as [tuneName status|toolData| |url|text| |target type];
    try done; cbn [step].
  - rewrite applyTune_eq. case_match; [done|]. by intros [= <-].
  - unfold render. intros H.
    apply result_bind_Ok in H as ([r s1] & H1 & [= <-]).
    apply result_bind_Ok in H1 as (s2 & H2 & [= _ <-]).
    destruct (file toolData) as [f|]; [case_bool_decide|];
      eauto using nodes_toggleStatus, nodes_fillImage.
  - unfold hidePreloader. destruct (imagePreloader (nodes s)); [|done].
    by intros ->%nodes_toggleStatus.
  - apply nodes_fillImage.
  - unfold fillCaption. by destruct (caption (nodes s)); intros [= <-].
  - unfold clearImage. by destruct (imageEl (nodes s)); intros [= <-].
Qed.

Lemma imageEl_no_dispatch (IconPicture : string) (p : ConstructorParams)
    (calls : list Call) (s : Ui) :
  run IconPicture p calls = Ok s →
  forallb (λ c, negb (is_dispatch c)) calls = true →
  imageEl (nodes s) = None.
Proof.
  unfold run. intros H Hcalls.
  apply result_bind_Ok in H as (s0 & Hc & H).
  assert (Hinit : imageEl (nodes s0) = None).
  { by apply constructor_Ok in Hc as (? & ? & _ & _ & ->). }
  clear Hc. revert s0 H Hinit.
  induction calls as [|c calls IH]; intros s0 H Hinit; simpl in *.
  - by injection H as <-.
  - apply andb_prop in Hcalls as [Hc Hcalls].
    apply result_bind_Ok in H as (s1 & Hs1 & H).
    apply (IH Hcalls s1 H).
    erewrite nodes_step; [done | by apply negb_true_iff | done].
Qed.

(** ** The contract of the widget *)

(** C1. On a widget reached by any sequence of calls, [render] of tool data
    whose file descriptor is absent or the empty mapping returns the
    wrapper and leaves exactly the Empty modifier among the state modifiers
    of the wrapper. It makes no element, changes no node but the wrapper,
    and the media container holds what it held before: nothing at all when
    no event has been dispatched so far. *)
Theorem render_without_file (IconPicture : string) (p : ConstructorParams)
    (calls : list Call) (s : Ui) (toolData : ImageToolData) :
  run IconPicture p calls = Ok s →
  file toolData = None ∨ file toolData = Some ∅ →
  ∃ s', render toolData s = Ok (wrapper (nodes s), s')
        ∧ active_states s' = [Empty]
        ∧ nodes s' = nodes s
        ∧ next (document s') = next (document s)
        ∧ (∀ l, l ≠ wrapper (nodes s) →
             heap (document s') !! l = heap (document s) !! l)
        ∧ attached_media s' = attached_media s
        ∧ (forallb (λ c, negb (is_dispatch c)) calls = true → attached_media s' = []).
Proof.
  intros Hrun Hfile. pose proof (wf_run _ _ _ _ Hrun) as Hwf.
  assert (Hr : render toolData s
               = let* s' := toggleStatus Empty s in Ok (wrapper (nodes s'), s')).
  { unfold render. by destruct Hfile as [-> | ->]. }
  rewrite Hr, toggleStatus_eq. cbn [result_bind]. eexists. split; [done|].
  assert (Hwf' : wf (set_document
      (modify (wrapper (nodes s)) (set_classList (status_classes Empty))) s))
    by (by apply wf_modify).
  split; [|split; [done|split; [done|split; [|split]]]].
  - apply (active_states_status_classes Empty
             (classes_of (document s) (wrapper (nodes s)))).
    unfold set_document; cbn [document nodes]. unfold classes_of.
    rewrite lookup_modify, decide_True by done.
    destruct (wf_alloc s Hwf (wrapper (nodes s))) as [_ [e ->]]; [|done].
    rewrite (wf_wrapper s Hwf). pose proof (wf_next s Hwf). lia.
  - intros l Hl. unfold set_document; cbn [document].
    rewrite lookup_modify. by case_decide.
  - by rewrite !attached_media_wf.
  - intros Hcalls. rewrite attached_media_wf by done.
    unfold set_document; cbn [nodes].
    by rewrite (imageEl_no_dispatch _ _ _ _ Hrun Hcalls).
Qed.

(** C2. [fillImage] makes its element at the next free reference. The url
    ends in [.mp4] exactly when the element is a [VIDEO], which then has the
    properties [autoplay], [loop], [muted] and [playsinline] set to [true]
    and listens to [loadeddata]; in every other case the element is an [IMG]
    that listens to [load]. The [src] property is the url in both cases. *)
Theorem fillImage_media_kind (url : string) (s : Ui) :
  ∃ s' e,
    fillImage url s = Ok s'
    ∧ heap (document s') !! next (document s) = Some e
    ∧ attributes e !! "src" = Some (AStr url)
    ∧ (((∃ p, url = p +:+ ".mp4")
        ∧ tagName e = "VIDEO"
        ∧ attributes e = <["playsinline" := ABool true]>
                           (<["muted" := ABool true]>
                              (<["loop" := ABool true]>
                                 (<["autoplay" := ABool true]>
                                    {[ "src" := AStr url ]})))
        ∧ listeners e = [("loadeddata", MediaReady (next (document s)))])
       ∨ ((¬ ∃ p, url = p +:+ ".mp4")
          ∧ tagName e = "IMG"
          ∧ attributes e = {[ "src" := AStr url ]}
          ∧ listeners e = [("load", MediaReady (next (document s)))])).
Proof.
  rewrite fillImage_eq.
  destruct (regex_mp4_test url) eqn:Htest.
  - apply regex_mp4_test_spec in Htest.
    destruct (decide (fileButton (nodes s) = next (document s)));
      (eexists _, _; split; [done|]; unfold set_document; cbn [document];
       split; [look; simpl; reflexivity|]; split; [done|]; by left).
  - assert (Hno : ¬ ∃ p, url = p +:+ ".mp4").
    { rewrite <- regex_mp4_test_spec. by rewrite Htest. }
    destruct (decide (fileButton (nodes s) = next (document s)));
      (eexists _, _; split; [done|]; unfold set_document; cbn [document];
       split; [look; simpl; reflexivity|]; split; [done|]; by right).
Qed.

Lemma mediaReady_attaches (t : loc) (s : Ui) :
  wf s → 5 ≤ t → t < next (document s) →
  ∃ s', mediaReady t s = Ok s'
        ∧ wf s'
        ∧ imageEl (nodes s') = Some t
        ∧ attached_media s' = [t]
        ∧ active_states s' = [Filled]
        ∧ (∀ old, imageEl (nodes s) = Some old → old ≠ t →
             off_tree (document s') old).
Proof.
  intros Hwf Ht1 Ht2.
  destruct (mediaReady t s) as [s'|] eqn:Hs'.
  2: { by rewrite mediaReady_eq in Hs'. }
  pose proof (wf_mediaReady t s s' Hwf Ht1 Ht2 Hs') as Hwf'.
  exists s'. split; [done|]. split; [done|].
  rewrite mediaReady_eq in Hs' by done. injection Hs' as <-.
  split; [done|]. split; [by rewrite attached_media_wf|]. split.
  - apply (active_states_status_classes Filled
       (classes_of (document s) 0)).
    unfold set_document, set_nodes, set_imageEl; cbn [document nodes wrapper].
    rewrite (wf_wrapper s Hwf).
    destruct (wf_alloc s Hwf 0) as [_ [e He]]; [pose proof (wf_next s Hwf); lia|].
    destruct (imageEl (nodes s)); look; rewrite He; simpl.
    + apply wf_wrapper_children in Hwf as Hc. unfold children_of in Hc.
      rewrite He in Hc. simpl in Hc. done.
    + done.
  - intros old Hold Hne. destruct (wf_imageEl s Hwf old Hold).
    apply off_tree_wf; [done|lia|lia|lia|].
    unfold set_document, set_nodes, set_imageEl; cbn [nodes imageEl]. congruence.
Qed.

(** C3. In every reachable state the media container holds at most one
    media element. [fillImage] makes its element at a fresh reference, as
    the child of no node, and leaves the attached media as they were. A call
    changes the attached media only if it is the dispatch of an event for
    which the target carries the readiness listener. Such a dispatch
    succeeds, leaves the target as the one attached media element, and the
    element attached before, if it is another one, is the child of no node
    afterwards. *)
Theorem one_media_element (IconPicture : string) (p : ConstructorParams)
    (calls : list Call) (s : Ui) :
  run IconPicture p calls = Ok s →
  length (attached_media s) ≤ 1
  ∧ (∀ url, ∃ s', fillImage url s = Ok s'
       ∧ heap (document s) !! next (document s) = None
       ∧ is_Some (heap (document s') !! next (document s))
       ∧ off_tree (document s') (next (document s))
       ∧ attached_media s' = attached_media s)
  ∧ (∀ c s', step c s = Ok s' → attached_media s' ≠ attached_media s →
       ∃ t ev, c = Dispatch t ev
               ∧ (ev, MediaReady t) ∈ listeners_of (document s) t)
  ∧ (∀ t ev, (ev, MediaReady t) ∈ listeners_of (document s) t →
       ∃ s', dispatchEvent t ev s = Ok s'
             ∧ attached_media s' = [t]
             ∧ (∀ old, old ∈ attached_media s → old ≠ t →
                  off_tree (document s') old)).
Proof.
  intros Hrun. pose proof (wf_run _ _ _ _ Hrun) as Hwf.
  split; [|split; [|split]].
  - rewrite attached_media_wf by done. destruct (imageEl (nodes s)); simpl; lia.
  - intros url. destruct (fillImage url s) as [s'|] eqn:Hs'.
    2: { by rewrite fillImage_eq in Hs'. }
    pose proof (wf_fillImage url s s' Hwf Hs') as Hwf'.
    assert (Hnext : next (document s') = S (next (document s))).
    { rewrite fillImage_eq in Hs'. by injection Hs' as <-. }
    exists s'. split; [done|]. split; [|split; [|split]].
    + apply eq_None_not_Some. rewrite (wf_alloc s Hwf). lia.
    + apply (wf_alloc s' Hwf'). lia.
    + pose proof (wf_next s Hwf).
      apply off_tree_wf; [done|lia|lia|lia|].
      rewrite (nodes_fillImage _ _ _ Hs'). intros Him.
      apply (wf_imageEl s Hwf) in Him. lia.
    + rewrite !attached_media_wf by done. by rewrite (nodes_fillImage _ _ _ Hs').
  - intros c s' Hstep Hne.
    pose proof (wf_step c s s' Hwf Hstep) as Hwf'.
    rewrite !attached_media_wf in Hne by done.
    destruct (is_dispatch c) eqn:Hc.
    2: { by rewrite (nodes_step c s s' Hc Hstep) in Hne. }
    destruct c as [| | | | | |t ev]; try done. cbn [step] in Hstep.
    exists t, ev. split; [done|].
    destruct (decide (t < 5)) as [Hlt|Hge].
    { rewrite dispatchEvent_skeleton in Hstep by done.
      by case_decide; injection Hstep as <-. }
    destruct (decide (t < next (document s))) as [Hlt|Hge'].
    2: { rewrite dispatchEvent_unallocated in Hstep by (done || lia).
         by injection Hstep as <-. }
    destruct (dispatchEvent_media t ev s) as (ev' & Hev & Hd); [done|lia|done|].
    rewrite Hd in Hstep. case_decide as Heq.
    + subst ev'. rewrite Hev. apply list_elem_of_here.
    + by injection Hstep as <-.
  - intros t ev Hin.
    assert (Ht : 5 ≤ t ∧ t < next (document s)).
    { destruct (decide (t < 5)) as [Hlt|Hge].
      { rewrite (wf_skeleton_listeners s Hwf) in Hin by done.
        case_decide; [by apply list_elem_of_singleton in Hin
                     | by apply elem_of_nil in Hin]. }
      split; [lia|]. apply (wf_alloc s Hwf).
      unfold listeners_of in Hin.
      destruct (heap (document s) !! t); [done | by apply elem_of_nil in Hin]. }
    destruct Ht as [Ht1 Ht2].
    destruct (dispatchEvent_media t ev s) as (ev' & Hev & ->); [done..|].
    rewrite Hev in Hin. apply list_elem_of_singleton in Hin as [= <-].
    rewrite decide_True by done.
    destruct (mediaReady_attaches t s) as (s' & Hs' & _ & _ & Ham & _ & Hoff);
      [done..|].
    exists s'. split; [done|]. split; [done|].
    intros old Hold Hne. apply Hoff; [|done].
    rewrite attached_media_wf in Hold by done.
    destruct (imageEl (nodes s)); simpl in Hold;
      [by apply list_elem_of_singleton in Hold as -> | by apply elem_of_nil in Hold].
Qed.

Lemma active_states_ext (s s' : Ui) :
  (∀ st, modifier (UiState_value st) ∈ classes_of (document s') (wrapper (nodes s'))
         ↔ modifier (UiState_value st) ∈ classes_of (document s) (wrapper (nodes s))) →
  active_states s' = active_states s.
Proof. intros H. unfold active_states. by apply list_filter_iff. Qed.

Lemma active_states_toggleStatus (status : UiState) (s : Ui) :
  wf s → ∃ s', toggleStatus status s = Ok s' ∧ active_states s' = [status].
Proof.
  intros Hwf. rewrite toggleStatus_eq. eexists. split; [done|].
  apply (active_states_status_classes status
           (classes_of (document s) (wrapper (nodes s)))).
  unfold set_document; cbn [document nodes]. unfold classes_of.
  rewrite lookup_modify, decide_True by done.
  destruct (wf_alloc s Hwf (wrapper (nodes s))) as [_ [e ->]]; [|done].
  rewrite (wf_wrapper s Hwf). pose proof (wf_next s Hwf). lia.
Qed.

Lemma active_states_fillImage (url : string) (s s' : Ui) :
  wf s → fillImage url s = Ok s' → active_states s' = active_states s.
Proof.
  intros Hwf. rewrite fillImage_eq. intros [= <-].
  apply active_states_ext. intros st.
  unfold set_document; cbn [document nodes].
  rewrite (wf_wrapper s Hwf), (wf_fileButton s Hwf).
  pose proof (wf_next s Hwf). by look.
Qed.

Lemma active_states_step (c : Call) (s s' : Ui) :
  wf s → keeps_state_modifiers c = true → step c s = Ok s' →
  active_states s' = active_states s ∨ ∃ status, active_states s' = [status].
Proof.
  intros Hwf Hc.
  destruct c as [tuneName status|toolData| |url|text| |target type];
    cbn [step].
  - rewrite applyTune_eq. case_match; [done|]. intros [= <-]. left.
    apply active_states_ext. intros st.
    unfold set_document; cbn [document nodes]. unfold classes_of.
    rewrite lookup_modify, decide_True by done.
    destruct (heap (document s) !! wrapper (nodes s)); simpl; [|done].
    assert (modifier (UiState_value st) ≠ modifier tuneName).
    { intros Heq%modifier_inj. subst tuneName. simpl in Hc. unfold is_state_name in Hc.
      apply negb_true_iff, bool_decide_eq_false in Hc. apply Hc.
      by destruct st; simpl; rewrite !elem_of_cons; auto. }
    destruct status; [rewrite elem_of_append_token | rewrite elem_of_remove_token];
      tauto.
  - unfold render. intros H.
    apply result_bind_Ok in H as ([r s1] & H1 & [= <-]).
    apply result_bind_Ok in H1 as (s2 & H2 & [= _ <-]).
    assert (Ht : toggleStatus Empty s = Ok s2 →
                 active_states s2 = active_states s
                 ∨ ∃ status, active_states s2 = [status]).
    { intros Ht. right. exists Empty.
      destruct (active_states_toggleStatus Empty s Hwf) as (? & ? & ?). congruence. }
    destruct (file toolData) as [f|]; [case_bool_decide|]; auto.
    left. by eapply active_states_fillImage.
  - unfold hidePreloader. rewrite (wf_imagePreloader s Hwf). intros H. right.
    exists Empty.
    destruct (active_states_toggleStatus Empty
      (set_document (modify 3 (set_style (setProperty "backgroundImage" ""))) s))
      as (? & ? & ?); [by apply wf_modify | congruence].
  - left. by eapply active_states_fillImage.
  - unfold fillCaption. rewrite (wf_caption s Hwf). intros [= <-]. left.
    apply active_states_ext. intros st.
    unfold set_document; cbn [document nodes]. by rewrite classes_of_modify.
  - unfold clearImage. destruct (imageEl (nodes s)) as [m|]; intros [= <-]; [|by left].
    left. apply active_states_ext. intros st.
    unfold set_document; cbn [document nodes]. by rewrite !classes_of_modify.
  - destruct (decide (target < 5)) as [Hlt|Hge].
    { rewrite dispatchEvent_skeleton by done.
      case_decide; intros [= <-]; by left. }
    destruct (decide (target < next (document s))) as [Hlt|Hge'].
    2: { rewrite dispatchEvent_unallocated by (done || lia).
         intros [= <-]; by left. }
    destruct (dispatchEvent_media target type s) as (ev' & Hev & ->); [done|lia|done|].
    case_decide; [|intros [= <-]; by left].
    destruct (mediaReady_attaches target s) as (s1 & Hs1 & _ & _ & _ & Hact & _);
      [done|lia|done|].
    rewrite Hs1. intros [= <-]. right. by exists Filled.
Qed.

(** C4, amended. In every reachable state [toggleStatus] succeeds and
    leaves the modifier of the requested state as the only state modifier on
    the wrapper; and once exactly one state modifier is present, exactly one
    is present after any further sequence of calls in which [applyTune] is
    not given the name of a state as tune name. *)
Theorem state_modifier_after_transition (IconPicture : string)
    (p : ConstructorParams) (calls : list Call) (s : Ui) :
  run IconPicture p calls = Ok s →
  (∀ status, ∃ s', toggleStatus status s = Ok s' ∧ active_states s' = [status])
  ∧ (∀ calls' s',
       forallb keeps_state_modifiers calls' = true →
       for_each step calls' s = Ok s' →
       length (active_states s) = 1 → length (active_states s') = 1).
Proof.
  intros Hrun. pose proof (wf_run _ _ _ _ Hrun) as Hwf. clear Hrun.
  split; [intros; by apply active_states_toggleStatus|].
  intros calls'. revert s Hwf.
  induction calls' as [|c calls' IH]; intros s Hwf s' Hok Hrun Hone; simpl in *.
  - by injection Hrun as <-.
  - apply andb_prop in Hok as [Hc Hok].
    apply result_bind_Ok in Hrun as (s1 & Hs1 & Hrun).
    apply (IH s1); [by eapply wf_step | done | done |].
    destruct (active_states_step c s s1 Hwf Hc Hs1) as [-> | [st ->]]; done.
Qed.

(** C5, amended. [applyTune("border", true)] followed by
    [applyTune("border", false)] succeeds in every state and leaves the
    wrapper's class list as it was with [image-tool--border] removed: the
    class list is unchanged whenever that modifier was not on it before. *)
Theorem applyTune_border_roundtrip (s : Ui) :
  ∃ s1 s2,
    applyTune "border" true s = Ok s1
    ∧ applyTune "border" false s1 = Ok s2
    ∧ wrapper (nodes s2) = wrapper (nodes s)
    ∧ classes_of (document s2) (wrapper (nodes s2))
      = DOMTokenList.remove_token (modifier "border")
          (classes_of (document s) (wrapper (nodes s)))
    ∧ (modifier "border" ∉ classes_of (document s) (wrapper (nodes s)) →
       classes_of (document s2) (wrapper (nodes s2))
       = classes_of (document s) (wrapper (nodes s))).
Proof.
  eexists _, _. split; [by rewrite applyTune_eq|]. split; [by rewrite applyTune_eq|].
  split; [done|].
  assert (Heq : classes_of
      (document (set_document (modify (wrapper (nodes s)) (set_classList
         (λ cl, DOMTokenList.remove_token (modifier "border") cl)))
         (set_document (modify (wrapper (nodes s)) (set_classList
         (λ cl, DOMTokenList.append_token (modifier "border") cl))) s)))
      (wrapper (nodes s))
    = DOMTokenList.remove_token (modifier "border")
        (classes_of (document s) (wrapper (nodes s)))).
  { unfold set_document; cbn [document nodes]. unfold classes_of.
    rewrite !lookup_modify, !decide_True by done.
    destruct (heap (document s) !! wrapper (nodes s)); simpl; [|done].
    apply remove_append_token. }
  split; [exact Heq|].
  intros Hnin. etrans; [exact Heq|]. by apply remove_token_absent.
Qed.

(** C7. In every reachable state and for every url, [fillImage] returns
    with the select-file button hidden ([display: none]) and not interactive
    ([pointerEvents: none]), the button still a child of the wrapper, while
    the readiness listener has not run: the nodes of the widget and the
    attached media are what they were. *)
Theorem fillImage_hides_button (IconPicture : string) (p : ConstructorParams)
    (calls : list Call) (s : Ui) (url : string) :
  run IconPicture p calls = Ok s →
  ∃ s', fillImage url s = Ok s'
        ∧ style_of (document s') (fileButton (nodes s')) "display" = "none"
        ∧ style_of (document s') (fileButton (nodes s')) "pointerEvents" = "none"
        ∧ fileButton (nodes s') ∈ children_of (document s') (wrapper (nodes s'))
        ∧ nodes s' = nodes s
        ∧ attached_media s' = attached_media s.
Proof.
  intros Hrun. pose proof (wf_run _ _ _ _ Hrun) as Hwf.
  destruct (fillImage url s) as [s'|] eqn:Hs'.
  2: { by rewrite fillImage_eq in Hs'. }
  pose proof (wf_fillImage url s s' Hwf Hs') as Hwf'.
  exists s'. split; [done|].
  assert (Hn : nodes s' = nodes s) by (by eapply nodes_fillImage).
  split; [|split; [|split; [|split; [done|]]]].
  - rewrite fillImage_eq in Hs'. injection Hs' as <-.
    unfold set_document; cbn [document nodes]. rewrite (wf_fileButton s Hwf).
    destruct (wf_alloc s Hwf 2) as [_ [e He]]; [pose proof (wf_next s Hwf); lia|].
    pose proof (wf_next s Hwf).
    look. rewrite He. simpl. unfold setProperty. simpl.
    rewrite lookup_insert_ne by done. by rewrite lookup_insert_eq.
  - rewrite fillImage_eq in Hs'. injection Hs' as <-.
    unfold set_document; cbn [document nodes]. rewrite (wf_fileButton s Hwf).
    destruct (wf_alloc s Hwf 2) as [_ [e He]]; [pose proof (wf_next s Hwf); lia|].
    pose proof (wf_next s Hwf).
    look. rewrite He. simpl. unfold setProperty. simpl.
    by rewrite lookup_insert_eq.
  - rewrite (wf_fileButton s' Hwf'), (wf_wrapper s' Hwf'),
      (wf_wrapper_children s' Hwf'). rewrite !elem_of_cons. auto.
  - rewrite !attached_media_wf by done. by rewrite Hn.
Qed.



(** C8. In every state that has the shape of a widget's store, whatever the
    styles in it (the reachable states, and those in which the host has put
    a placeholder image on the preloader), [hidePreloader] succeeds, removes
    the background image of the preloader and nothing else of its style,
    and leaves the wrapper with the Empty modifier as its only state
    modifier. The nodes of the widget and the attached media are kept, only
    the wrapper and the preloader change, and an attached media element is
    exactly the element it was. *)
Theorem hidePreloader_spec (s : Ui) :
  wf s →
  ∃ preloader s',
    imagePreloader (nodes s) = Some preloader
    ∧ hidePreloader s = Ok s'
    ∧ style_of (document s') preloader "backgroundImage" = ""
    ∧ (∀ prop, prop ≠ "backgroundImage" →
         style_of (document s') preloader prop = style_of (document s) preloader prop)
    ∧ active_states s' = [Empty]
    ∧ nodes s' = nodes s
    ∧ attached_media s' = attached_media s
    ∧ (∀ l, l ≠ wrapper (nodes s) → l ≠ preloader →
         heap (document s') !! l = heap (document s) !! l)
    ∧ (∀ m, m ∈ attached_media s →
         heap (document s') !! m = heap (document s) !! m).
Proof.
  intros Hwf. pose proof (wf_next s Hwf) as Hnext.
  exists 3.
  assert (Hwf1 : wf (set_document
      (modify 3 (set_style (setProperty "backgroundImage" ""))) s))
    by (by apply wf_modify).
  destruct (active_states_toggleStatus Empty _ Hwf1) as (s' & Hs' & Hact).
  assert (Hhide : hidePreloader s = Ok s').
  { unfold hidePreloader. by rewrite (wf_imagePreloader s Hwf). }
  pose proof (wf_step CallHidePreloader s s' Hwf Hhide) as Hwf'.
  assert (Hn : nodes s' = nodes s).
  { by apply (nodes_step CallHidePreloader s s'). }
  exists s'. split; [by apply wf_imagePreloader|]. split; [done|].
  rewrite toggleStatus_eq in Hs'. injection Hs' as <-.
  split; [|split; [|split; [done|split; [done|split; [|split]]]]].
  - unfold set_document; cbn [document nodes]. rewrite (wf_wrapper s Hwf).
    rewrite style_of_modify_ne by done.
    apply style_of_setProperty. apply (wf_alloc s Hwf). lia.
  - intros prop Hprop. unfold set_document; cbn [document nodes].
    rewrite (wf_wrapper s Hwf). rewrite style_of_modify_ne by done.
    by apply style_of_setProperty_ne.
  - rewrite !attached_media_wf by done. by rewrite Hn.
  - intros l Hl1 Hl2. unfold set_document; cbn [document nodes].
    rewrite !lookup_modify. by repeat case_decide.
  - intros m Hm. rewrite attached_media_wf in Hm by done.
    assert (5 ≤ m).
    { destruct (imageEl (nodes s)) as [m'|] eqn:Hm'; simpl in Hm;
        [|by apply elem_of_nil in Hm].
      apply list_elem_of_singleton in Hm as ->.
      by destruct (wf_imageEl s Hwf m' Hm'). }
    unfold set_document; cbn [document nodes]. rewrite (wf_wrapper s Hwf). by look.
Qed.

(** C9. [fillCaption] never throws, in any state. When the caption node is
    set, the children of the caption element are replaced by the nodes the
    host parses from the given text, which is handed to the parser as it is;
    every other field of the element and all other elements are kept. When
    the caption node is undefined the state is unchanged. *)
Theorem fillCaption_spec (text : string) (s : Ui) :
  ∃ s', fillCaption text s = Ok s'
        ∧ nodes s' = nodes s
        ∧ match caption (nodes s) with
          | Some c =>
              (∀ e, heap (document s) !! c = Some e →
                 ∃ e', heap (document s') !! c = Some e'
                       ∧ fragment e' = ParsedFrom text
                       ∧ childNodes e' = []
                       ∧ tagName e' = tagName e
                       ∧ classList e' = classList e
                       ∧ attributes e' = attributes e
                       ∧ style e' = style e
                       ∧ dataset e' = dataset e
                       ∧ listeners e' = listeners e)
              ∧ (∀ l, l ≠ c → heap (document s') !! l = heap (document s) !! l)
          | None => s' = s
          end.
Proof.
  unfold fillCaption. destruct (caption (nodes s)) as [c|]; eexists; (split; [done|]);
    (split; [done|]); [|done]. split.
  - intros e He. eexists. unfold set_document; cbn [document].
    rewrite lookup_modify, decide_True, He by done. done.
  - intros l Hl. unfold set_document; cbn [document].
    rewrite lookup_modify. by case_decide.
Qed.

Lemma config_step (c : Call) (s s' : Ui) :
  wf s → step c s = Ok s' → config s' = config s.
Proof.
  intros Hwf. destruct c as [tuneName status|toolData| |url|text| |target type];
    cbn [step].
  - rewrite applyTune_eq. case_match; [done|]. by intros [= <-].
  - unfold render. intros H.
    apply result_bind_Ok in H as ([r s1] & H1 & [= <-]).
    apply result_bind_Ok in H1 as (s2 & H2 & [= _ <-]).
    destruct (file toolData) as [f|]; [case_bool_decide|];
      rewrite ?toggleStatus_eq, ?fillImage_eq in H2; by injection H2 as <-.
  - unfold hidePreloader. destruct (imagePreloader (nodes s)); [|done].
    rewrite toggleStatus_eq. by intros [= <-].
  - rewrite fillImage_eq. by intros [= <-].
  - unfold fillCaption. by destruct (caption (nodes s)); intros [= <-].
  - unfold clearImage. by destruct (imageEl (nodes s)); intros [= <-].
  - destruct (decide (target < 5)) as [Hlt|Hge].
    { rewrite dispatchEvent_skeleton by done. by case_decide; intros [= <-]. }
    destruct (decide (target < next (document s))) as [Hlt|Hge'].
    2: { rewrite dispatchEvent_unallocated by (done || lia). by intros [= <-]. }
    destruct (dispatchEvent_media target type s) as (ev' & Hev & ->); [done|lia|done|].
    case_decide; [|by intros [= <-]].
    rewrite mediaReady_eq by done. by intros [= <-].
Qed.

Lemma config_run (IconPicture : string) (p : ConstructorParams)
    (calls : list Call) (s : Ui) :
  run IconPicture p calls = Ok s → config s = param_config p.
Proof.
  unfold run. intros H. apply result_bind_Ok in H as (s0 & Hc & H).
  pose proof (wf_constructor _ _ _ Hc) as Hwf.
  assert (Hinit : config s0 = param_config p).
  { by apply constructor_Ok in Hc as (? & ? & _ & _ & ->). }
  clear Hc. revert s0 H Hwf Hinit.
  induction calls as [|c calls IH]; intros s0 H Hwf Hinit; simpl in *.
  - by injection H as <-.
  - apply result_bind_Ok in H as (s1 & Hs1 & H).
    apply (IH s1 H); [by eapply wf_step|].
    by rewrite (config_step c s0 s1).
Qed.

(** C10. In every reachable state the caption element exists, carries the
    placeholder of the configuration, and is the child of no node, so the
    wrapper does not contain it; the root returned by [render] does not
    contain it either, and [fillCaption] changes no node inside the
    wrapper. *)
Theorem caption_detached (IconPicture : string) (p : ConstructorParams)
    (calls : list Call) (s : Ui) :
  run IconPicture p calls = Ok s →
  ∃ c e,
    caption (nodes s) = Some c
    ∧ heap (document s) !! c = Some e
    ∧ dataset e !! "placeholder" = Some (captionPlaceholder (param_config p))
    ∧ off_tree (document s) c
    ∧ ¬ contains (document s) (wrapper (nodes s)) c
    ∧ (∀ toolData root s', render toolData s = Ok (root, s') →
         root = wrapper (nodes s') ∧ caption (nodes s') = Some c
         ∧ ¬ contains (document s') root c)
    ∧ (∀ text, ∃ s', fillCaption text s = Ok s'
         ∧ wrapper (nodes s') = wrapper (nodes s)
         ∧ ∀ l, contains (document s) (wrapper (nodes s)) l →
                heap (document s') !! l = heap (document s) !! l).
Proof.
  intros Hrun. pose proof (wf_run _ _ _ _ Hrun) as Hwf.
  pose proof (wf_next s Hwf) as Hnext.
  assert (Hdetached : ∀ s0, wf s0 →
            off_tree (document s0) 4 ∧ ¬ contains (document s0) (wrapper (nodes s0)) 4).
  { intros s0 Hwf0.
    assert (Hoff : off_tree (document s0) 4).
    { apply off_tree_wf; [done|lia|lia|lia|]. intros Him.
      apply (wf_imageEl s0 Hwf0) in Him. lia. }
    split; [done|]. intros Hc. apply contains_off_tree in Hc; [|done].
    by rewrite (wf_wrapper s0 Hwf0) in Hc. }
  destruct (wf_alloc s Hwf 4) as [_ [e He]]; [lia|].
  exists 4, e. split; [by apply wf_caption|]. split; [done|]. split.
  { pose proof (wf_placeholder s Hwf) as Hph. unfold dataset_of in Hph.
    rewrite He in Hph. by rewrite <- (config_run _ _ _ _ Hrun). }
  destruct (Hdetached s Hwf) as [Hoff Hnc].
  split; [done|]. split; [done|]. split.
  - intros toolData root s' Hr.
    assert (Hstep : step (CallRender toolData) s = Ok s').
    { cbn [step]. by rewrite Hr. }
    pose proof (wf_step _ _ _ Hwf Hstep) as Hwf'.
    assert (Hroot : root = wrapper (nodes s')).
    { unfold render in Hr. apply result_bind_Ok in Hr as (s1 & _ & [= <- <-]). done. }
    subst root. split; [done|]. split; [by apply wf_caption|].
    by apply Hdetached.
  - intros text. exists (set_document (modify 4 (set_innerHTML text)) s).
    split; [unfold fillCaption; by rewrite (wf_caption s Hwf)|]. split; [done|].
    intros l Hl. unfold set_document; cbn [document]. rewrite lookup_modify.
    case_decide; [|done]. subst l. done.
Qed.

(** ** The contract at the concrete widget *)

Lemma render_without_file_witness :
  ∃ s',
    render (mkImageToolData (Some ∅) None) demo_tuned
    = Ok (wrapper (nodes demo_tuned), s')
    ∧ active_states s' = [Empty]
    ∧ attached_media s' = [].
Proof.
  destruct (render_without_file demo_icon demo_params [CallApplyTune "border" true]
              demo_tuned (mkImageToolData (Some ∅) None))
    as (s' & Hr & Hact & _ & _ & _ & _ & Hnone).
  - vm_compute. reflexivity.
  - right. reflexivity.
  - exists s'. split; [exact Hr|]. split; [exact Hact|]. apply Hnone. reflexivity.
Defined.

Lemma one_media_element_witness :
  length (attached_media demo_pending) ≤ 1
  ∧ ∃ s', dispatchEvent 6 "loadeddata" demo_pending = Ok s'
          ∧ attached_media s' = [6]
          ∧ off_tree (document s') 5.
Proof.
  destruct (one_media_element demo_icon demo_params
              [CallFillImage "https://x/a.png"; Dispatch 5 "load";
               CallFillImage "https://x/b.mp4"] demo_pending)
    as (Hle & _ & _ & Hready).
  - vm_compute. reflexivity.
  - split; [exact Hle|].
    destruct (Hready 6 "loadeddata") as (s' & Hs' & Ham & Hoff).
    + vm_compute. apply list_elem_of_here.
    + exists s'. split; [exact Hs'|]. split; [exact Ham|].
      apply Hoff; [vm_compute; apply list_elem_of_here | lia].
Defined.

Lemma state_modifier_after_transition_witness :
  ∃ s', for_each step
          [CallApplyTune "border" true; CallFillImage "https://x/a.png";
           Dispatch 5 "load"] demo_empty = Ok s'
        ∧ length (active_states s') = 1.
Proof.
  destruct (state_modifier_after_transition demo_icon demo_params
              [CallHidePreloader] demo_empty) as [_ Hkeep].
  - vm_compute. reflexivity.
  - eexists. split; [vm_compute; reflexivity|].
    eapply Hkeep with
      (calls' := [CallApplyTune "border" true; CallFillImage "https://x/a.png";
                  Dispatch 5 "load"]).
    + reflexivity.
    + vm_compute. reflexivity.
    + vm_compute. reflexivity.
Defined.


Lemma fillImage_hides_button_witness :
  ∃ s', fillImage "https://x/a.png" demo_fresh = Ok s'
        ∧ style_of (document s') (fileButton (nodes s')) "display" = "none"
        ∧ style_of (document s') (fileButton (nodes s')) "pointerEvents" = "none"
        ∧ attached_media s' = [].
Proof.
  destruct (fillImage_hides_button demo_icon demo_params [] demo_fresh
              "https://x/a.png") as (s' & Hs' & Hd & Hp & _ & _ & Ham).
  - vm_compute. reflexivity.
  - exists s'. split; [exact Hs'|]. split; [exact Hd|]. split; [exact Hp|].
    rewrite Ham. vm_compute. reflexivity.
Defined.

Lemma hidePreloader_spec_witness :
  style_of (document demo_preloading) 3 "backgroundImage" = "url(https://x/a.png)"
  ∧ ∃ s', hidePreloader demo_preloading = Ok s'
          ∧ style_of (document s') 3 "backgroundImage" = ""
          ∧ active_states s' = [Empty]
          ∧ attached_media s' = [5]
          ∧ heap (document s') !! 5 = heap (document demo_preloading) !! 5.
Proof.
  split; [vm_compute; reflexivity|].
  destruct (hidePreloader_spec demo_preloading)
    as (pre & s' & Hpre & Hs' & Hbg & _ & Hact & _ & Ham & _ & Hkeep).
  - unfold demo_preloading. apply wf_modify; [reflexivity..|].
    apply (wf_run demo_icon demo_params
             [CallFillImage "https://x/a.png"; Dispatch 5 "load"]).
    vm_compute. reflexivity.
  - assert (Hp : pre = 3) by (vm_compute in Hpre; congruence). subst pre.
    exists s'. split; [exact Hs'|]. split; [exact Hbg|]. split; [exact Hact|]. split.
    + rewrite Ham. vm_compute. reflexivity.
    + apply Hkeep. vm_compute. apply list_elem_of_here.
Defined.

Lemma caption_detached_witness :
  ∃ c, caption (nodes demo_loaded) = Some c
       ∧ off_tree (document demo_loaded) c
       ∧ ¬ contains (document demo_loaded) (wrapper (nodes demo_loaded)) c.
Proof.
  destruct (caption_detached demo_icon demo_params
              [CallFillImage "https://x/a.png"; Dispatch 5 "load"] demo_loaded)
    as (c & e & Hc & _ & _ & Hoff & Hnc & _).
  - vm_compute. reflexivity.
  - exists c. auto.
Defined.

(** ** Two readings of the contract that do not hold *)

Lemma state_modifier_counterexample :
  (∃ s, run demo_icon demo_params [] = Ok s ∧ active_states s = [])
  ∧ (∃ s, run demo_icon demo_params [CallHidePreloader; CallApplyTune "filled" true]
          = Ok s
          ∧ active_states s = [Empty; Filled]).
Proof.
  split; eexists; (split; [vm_compute; reflexivity|]); vm_compute; reflexivity.
Qed.

Lemma applyTune_border_counterexample :
  ∃ s s1 s2,
    run demo_icon demo_params [CallApplyTune "border" true] = Ok s
    ∧ applyTune "border" true s = Ok s1
    ∧ applyTune "border" false s1 = Ok s2
    ∧ classes_of (document s) (wrapper (nodes s))
      = ["cdx-block"; "image-tool"; "image-tool--border"]
    ∧ classes_of (document s2) (wrapper (nodes s2)) = ["cdx-block"; "image-tool"]
    ∧ classes_of (document s2) (wrapper (nodes s2))
      ≠ classes_of (document s) (wrapper (nodes s)).
Proof.
  eexists _, _, _. split; [vm_compute; reflexivity|].
  split; [vm_compute; reflexivity|]. split; [vm_compute; reflexivity|].
  split; [vm_compute; reflexivity|]. split; [vm_compute; reflexivity|].
  vm_compute. discriminate.
Qed.

(** * Further properties of the widget *)

(** A field that no setter used on existing elements touches is kept by every call. *)
Lemma observe_step {A} (p : Element → A) (dflt : A) (c : Call) (s s' : Ui) (l : loc) :
  (∀ f e, p (set_classList f e) = p e) →
  (∀ f e, p (set_style f e) = p e) →
  (∀ f e, p (set_attributes f e) = p e) →
  (∀ v e, p (set_innerHTML v e) = p e) →
  (∀ f e, p (set_childNodes f e) = p e) →
  wf s → step c s = Ok s' → l < next (document s) →
  from_option p dflt (heap (document s') !! l)
  = from_option p dflt (heap (document s) !! l).
Proof.
  intros Hcl Hst Hat Hin Hch Hwf Hstep Hl.
  pose proof (wf_next s Hwf) as Hn.
  assert (Hfill : ∀ url s1, fillImage url s = Ok s1 →
    from_option p dflt (heap (document s1) !! l)
    = from_option p dflt (heap (document s) !! l)).
  { intros url s1. rewrite fillImage_eq. intros [= <-].
    unfold set_document; cbn [document]. rewrite (wf_fileButton s Hwf).
    look; destruct (heap (document s) !! _); simpl; by rewrite ?Hst. }
  assert (Htog : ∀ st s1, toggleStatus st s = Ok s1 →
    from_option p dflt (heap (document s1) !! l)
    = from_option p dflt (heap (document s) !! l)).
  { intros st s1. rewrite toggleStatus_eq. intros [= <-].
    unfold set_document; cbn [document]. by apply observe_modify. }
  destruct c as [tuneName status|toolData| |url|text| |target type];
    cbn [step] in Hstep.
  - rewrite applyTune_eq in Hstep. case_match; [done|]. injection Hstep as <-.
    unfold set_document; cbn [document]. by apply observe_modify.
  - unfold render in Hstep.
    apply result_bind_Ok in Hstep as ([r s1] & H1 & [= <-]).
    apply result_bind_Ok in H1 as (s2 & H2 & [= _ <-]).
    destruct (file toolData) as [f|]; [case_bool_decide|]; eauto.
  - unfold hidePreloader in Hstep. rewrite (wf_imagePreloader s Hwf) in Hstep.
    rewrite toggleStatus_eq in Hstep. injection Hstep as <-.
    unfold set_document; cbn [document nodes]. by rewrite !observe_modify.
  - eauto.
  - unfold fillCaption in Hstep. rewrite (wf_caption s Hwf) in Hstep.
    injection Hstep as <-. unfold set_document; cbn [document]. by apply observe_modify.
  - unfold clearImage in Hstep.
    destruct (imageEl (nodes s)) as [m|]; injection Hstep as <-; [|done].
    unfold set_document; cbn [document]. by rewrite !observe_modify.
  - destruct (decide (target < 5)) as [Hlt|Hge].
    { rewrite dispatchEvent_skeleton in Hstep by done.
      by case_decide; injection Hstep as <-. }
    destruct (decide (target < next (document s))) as [Hlt|Hge'].
    2: { rewrite dispatchEvent_unallocated in Hstep by (done || lia).
         by injection Hstep as <-. }
    destruct (dispatchEvent_media target type s) as (ev' & Hev & Hd); [done|lia|done|].
    rewrite Hd in Hstep. case_decide; [|by injection Hstep as <-].
    rewrite mediaReady_eq in Hstep by done. injection Hstep as <-.
    unfold set_document, set_nodes; cbn [document].
    destruct (imageEl (nodes s)); look;
      destruct (heap (document s) !! _); simpl; unfold detach;
      rewrite ?Hst, ?Hcl, ?Hch; done.
Qed.

Lemma next_step (c : Call) (s s' : Ui) :
  wf s → step c s = Ok s' → next (document s) ≤ next (document s').
Proof.
  intros Hwf Hstep. pose proof (wf_step c s s' Hwf Hstep) as Hwf'.
  destruct (decide (next (document s) ≤ next (document s'))) as [|Hlt]; [done|].
  assert (Hl : next (document s') < next (document s)) by lia.
  apply (wf_alloc s Hwf) in Hl as [e He].
  assert (He' : is_Some (heap (document s') !! next (document s'))).
  { pose proof (observe_step (λ _, true) false c s s' (next (document s'))) as Hobs.
    rewrite He in Hobs. simpl in Hobs.
    destruct (heap (document s') !! next (document s')); [done|].
    simpl in Hobs. discriminate Hobs; (done || lia). }
  apply (wf_alloc s' Hwf') in He'. lia.
Qed.

(** X8. No call removes an element, changes its tag or changes its
    listeners: an element made by [fillImage] keeps its readiness listener
    through every later call. *)
Theorem listeners_kept (IconPicture : string) (p : ConstructorParams)
    (calls calls' : list Call) (s s' : Ui) (l : loc) :
  run IconPicture p calls = Ok s →
  for_each step calls' s = Ok s' →
  is_Some (heap (document s) !! l) →
  is_Some (heap (document s') !! l)
  ∧ listeners_of (document s') l = listeners_of (document s) l
  ∧ tag_of (document s') l = tag_of (document s) l.
Proof.
  intros Hrun. pose proof (wf_run _ _ _ _ Hrun) as Hwf. clear Hrun.
  revert s Hwf. induction calls' as [|c calls' IH]; intros s Hwf Hcalls Hl; simpl in *.
  - by injection Hcalls as <-.
  - apply result_bind_Ok in Hcalls as (s1 & Hs1 & Hcalls).
    pose proof (wf_step c s s1 Hwf Hs1) as Hwf1.
    apply (wf_alloc s Hwf) in Hl.
    assert (Hl1 : is_Some (heap (document s1) !! l)).
    { apply (wf_alloc s1 Hwf1). pose proof (next_step c s s1 Hwf Hs1). lia. }
    destruct (IH s1 Hwf1 Hcalls Hl1) as (H1 & H2 & H3).
    split; [done|]. unfold listeners_of, tag_of in *.
    rewrite H2, H3. split; by apply (observe_step _ _ c).
Qed.

(** X1. In a reachable state a call throws exactly when it is [applyTune]
    with white space in the tune name, and the exception is then
    [InvalidCharacterError]: no other method and no event listener ever
    throws; in particular [removeChild] in the readiness listener always
    finds its child. *)
Theorem calls_return (IconPicture : string) (p : ConstructorParams)
    (calls : list Call) (s : Ui) (c : Call) (e : DOMException) :
  run IconPicture p calls = Ok s →
  step c s = Throw e
  ↔ ∃ tuneName status,
      c = CallApplyTune tuneName status
      ∧ DOMTokenList.has_whitespace tuneName = true
      ∧ e = InvalidCharacterError.
Proof.
  intros Hrun. pose proof (wf_run _ _ _ _ Hrun) as Hwf. split.
  - intros Hthrow.
    destruct (step_throws c s e Hwf Hthrow) as (tuneName & status & -> & Hws).
    exists tuneName, status. split; [done|]. split; [done|].
    cbn [step] in Hthrow. rewrite applyTune_eq, Hws in Hthrow. by injection Hthrow.
  - intros (tuneName & status & -> & Hws & ->). cbn [step].
    by rewrite applyTune_eq, Hws.
Qed.

Lemma selectFileCalls_step (c : Call) (s s' : Ui) :
  wf s → step c s = Ok s' →
  selectFileCalls s' = selectFileCalls s + (if is_click c 2 then 1 else 0).
Proof.
  intros Hwf. destruct c as [tuneName status|toolData| |url|text| |target type];
    cbn [step is_click].
  - rewrite applyTune_eq. case_match; [done|]. intros [= <-]. simpl. lia.
  - unfold render. intros H.
    apply result_bind_Ok in H as ([r s1] & H1 & [= <-]).
    apply result_bind_Ok in H1 as (s2 & H2 & [= _ <-]).
    destruct (file toolData) as [f|]; [case_bool_decide|];
      rewrite ?toggleStatus_eq, ?fillImage_eq in H2; injection H2 as <-; simpl; lia.
  - unfold hidePreloader. destruct (imagePreloader (nodes s)); [|done].
    rewrite toggleStatus_eq. intros [= <-]. simpl. lia.
  - rewrite fillImage_eq. intros [= <-]. simpl. lia.
  - unfold fillCaption. destruct (caption (nodes s)); intros [= <-]; simpl; lia.
  - unfold clearImage. destruct (imageEl (nodes s)); intros [= <-]; simpl; lia.
  - destruct (decide (target < 5)) as [Hlt|Hge].
    { rewrite dispatchEvent_skeleton by done.
      case_decide as Hc; intros [= <-].
      - rewrite bool_decide_eq_true_2 by done. simpl. lia.
      - rewrite bool_decide_eq_false_2 by done. simpl. lia. }
    rewrite bool_decide_eq_false_2 by (intros [-> _]; lia).
    destruct (decide (target < next (document s))) as [Hlt|Hge'].
    2: { rewrite dispatchEvent_unallocated by (done || lia). intros [= <-]. lia. }
    destruct (dispatchEvent_media target type s) as (ev' & Hev & ->); [done|lia|done|].
    case_decide; [|intros [= <-]; lia].
    rewrite mediaReady_eq by done. intros [= <-]. simpl. lia.
Qed.

(** X4. [onSelectFile] has been called once for each [click] dispatched on
    the button, and for nothing else. *)
Theorem onSelectFile_once_per_click (IconPicture : string) (p : ConstructorParams)
    (calls : list Call) (s : Ui) :
  run IconPicture p calls = Ok s →
  selectFileCalls s
  = length (filter (λ c, is_click c (fileButton (nodes s)) = true) calls).
Proof.
  intros Hrun. pose proof (wf_run _ _ _ _ Hrun) as Hwf.
  rewrite (wf_fileButton s Hwf). clear Hwf.
  unfold run in Hrun. apply result_bind_Ok in Hrun as (s0 & Hc & Hrun).
  pose proof (wf_constructor _ _ _ Hc) as Hwf0.
  assert (H0 : selectFileCalls s0 = 0).
  { by apply constructor_Ok in Hc as (? & ? & _ & _ & ->). }
  enough (Hgen : selectFileCalls s = selectFileCalls s0
            + length (filter (λ c, is_click c 2 = true) calls)) by lia.
  clear Hc H0. revert s0 Hwf0 Hrun.
  induction calls as [|c calls IH]; intros s0 Hwf0 Hrun; simpl in Hrun.
  - injection Hrun as <-. simpl. lia.
  - apply result_bind_Ok in Hrun as (s1 & Hs1 & Hrun).
    rewrite (IH s1 (wf_step c s0 s1 Hwf0 Hs1) Hrun).
    rewrite (selectFileCalls_step c s0 s1 Hwf0 Hs1).
    rewrite filter_cons. destruct (is_click c 2); simpl; lia.
Qed.

Lemma detach_leaf (child : loc) (e : Element) :
  childNodes e = [] → detach child e = e.
Proof. destruct e; simpl. by intros ->. Qed.

Lemma readiness_dispatch (s : Ui) (t : loc) (ev : string) :
  wf s → (ev, MediaReady t) ∈ listeners_of (document s) t →
  5 ≤ t ∧ t < next (document s) ∧ dispatchEvent t ev s = mediaReady t s.
Proof.
  intros Hwf Hin.
  assert (Ht : 5 ≤ t ∧ t < next (document s)).
  { destruct (decide (t < 5)) as [Hlt|Hge].
    { rewrite (wf_skeleton_listeners s Hwf) in Hin by done.
      case_decide; [by apply list_elem_of_singleton in Hin
                   | by apply elem_of_nil in Hin]. }
    split; [lia|]. apply (wf_alloc s Hwf).
    unfold listeners_of in Hin.
    destruct (heap (document s) !! t); [done | by apply elem_of_nil in Hin]. }
  destruct Ht as [Ht1 Ht2]. split; [done|]. split; [done|].
  destruct (dispatchEvent_media t ev s) as (ev' & Hev & ->); [done..|].
  rewrite Hev in Hin. apply list_elem_of_singleton in Hin as [= <-].
  by rewrite decide_True.
Qed.

(** What the readiness listener leaves alone. *)
Lemma mediaReady_frame (t : loc) (s s' : Ui) (l : loc) :
  wf s → mediaReady t s = Ok s' → 2 ≤ l → l ≠ 3 →
  heap (document s') !! l = heap (document s) !! l.
Proof.
  intros Hwf. rewrite mediaReady_eq by done. intros [= <-] Hl1 Hl2.
  pose proof (wf_leaves s Hwf l Hl1) as Hleaf. unfold children_of in Hleaf.
  unfold set_document, set_nodes; cbn [document].
  destruct (imageEl (nodes s)); look;
    (destruct (heap (document s) !! l) as [e|]; simpl in *; [|done]);
    by rewrite detach_leaf.
Qed.

Lemma wrapper_classes_toggleStatus (status : UiState) (s s' : Ui) (x : string) :
  wf s → toggleStatus status s = Ok s' →
  (∀ st, x ≠ modifier (UiState_value st)) →
  x ∈ classes_of (document s') (wrapper (nodes s'))
  ↔ x ∈ classes_of (document s) (wrapper (nodes s)).
Proof.
  intros Hwf. rewrite toggleStatus_eq. intros [= <-] Hx.
  unfold set_document; cbn [document nodes]. unfold classes_of.
  rewrite lookup_modify, decide_True by done.
  destruct (heap (document s) !! wrapper (nodes s)); simpl; [|done].
  rewrite elem_of_status_classes. split; [intros [->|[? _]]|]; auto.
  by destruct (Hx status).
Qed.

(** X6. A readiness signal on an element that carries the readiness
    listener makes that element [nodes.imageEl], leaves Filled as the only
    state modifier, leaves the preloader without background image, keeps
    every class of the wrapper that is not a state modifier, and changes no
    element other than the wrapper, the media container and the
    preloader: the button and the media elements themselves are as
    before. *)
Theorem readiness_effects (IconPicture : string) (p : ConstructorParams)
    (calls : list Call) (s : Ui) (t : loc) (ev : string) :
  run IconPicture p calls = Ok s →
  (ev, MediaReady t) ∈ listeners_of (document s) t →
  ∃ s' preloader,
    dispatchEvent t ev s = Ok s'
    ∧ imagePreloader (nodes s) = Some preloader
    ∧ set_imageEl (Some t) (nodes s) = nodes s'
    ∧ active_states s' = [Filled]
    ∧ style_of (document s') preloader "backgroundImage" = ""
    ∧ selectFileCalls s' = selectFileCalls s
    ∧ (∀ x, (∀ st, x ≠ modifier (UiState_value st)) →
         x ∈ classes_of (document s') (wrapper (nodes s'))
         ↔ x ∈ classes_of (document s) (wrapper (nodes s)))
    ∧ (∀ l, l ≠ wrapper (nodes s) → l ≠ imageContainer (nodes s) → l ≠ preloader →
         heap (document s') !! l = heap (document s) !! l).
Proof.
  intros Hrun Hin. pose proof (wf_run _ _ _ _ Hrun) as Hwf.
  destruct (readiness_dispatch s t ev Hwf Hin) as (Ht1 & Ht2 & ->).
  destruct (mediaReady_attaches t s Hwf Ht1 Ht2) as (s' & Hs' & Hwf' & _ & _ & Hact & _).
  exists s', 3. split; [done|]. split; [by apply wf_imagePreloader|].
  pose proof Hs' as Heq. rewrite mediaReady_eq in Heq by done. injection Heq as <-.
  split; [done|]. split; [done|]. split; [|split; [done|split]].
  - unfold set_document; cbn [document].
    apply style_of_setProperty. pose proof (wf_next s Hwf).
    destruct (imageEl (nodes s)); look; rewrite ?fmap_is_Some;
      apply (wf_alloc s Hwf); lia.
  - intros x Hx.
    unfold set_document, set_nodes, set_imageEl; cbn [document nodes wrapper].
    rewrite (wf_wrapper s Hwf). unfold classes_of.
    destruct (imageEl (nodes s)); look;
      (destruct (heap (document s) !! 0); simpl; [|done]);
      rewrite elem_of_status_classes; split; [intros [->|[? _]]| |intros [->|[? _]]|];
      try done; try (by destruct (Hx Filled)); auto.
  - intros l Hl0 Hl1 Hl3.
    rewrite (wf_wrapper s Hwf) in Hl0. rewrite (wf_imageContainer s Hwf) in Hl1.
    apply (mediaReady_frame t s _ l Hwf Hs'); lia.
Qed.

(** X7. When two elements carry a readiness listener and both signals fire,
    the element attached in the end is the one whose signal fired last,
    whichever was requested last; the other one is then the child of no
    node. *)
Theorem last_readiness_wins (IconPicture : string) (p : ConstructorParams)
    (calls : list Call) (s : Ui) (t1 t2 : loc) (ev1 ev2 : string) :
  run IconPicture p calls = Ok s →
  (ev1, MediaReady t1) ∈ listeners_of (document s) t1 →
  (ev2, MediaReady t2) ∈ listeners_of (document s) t2 →
  ∃ s1 s2,
    dispatchEvent t1 ev1 s = Ok s1
    ∧ dispatchEvent t2 ev2 s1 = Ok s2
    ∧ attached_media s1 = [t1]
    ∧ attached_media s2 = [t2]
    ∧ (t1 ≠ t2 → off_tree (document s2) t1).
Proof.
  intros Hrun Hin1 Hin2. pose proof (wf_run _ _ _ _ Hrun) as Hwf.
  destruct (readiness_dispatch s t1 ev1 Hwf Hin1) as (Ht1 & Ht1' & Hd1).
  destruct (readiness_dispatch s t2 ev2 Hwf Hin2) as (Ht2 & Ht2' & _).
  destruct (mediaReady_attaches t1 s Hwf Ht1 Ht1')
    as (s1 & Hs1 & Hwf1 & Him1 & Ham1 & _ & _).
  rewrite <- Hd1 in Hs1.
  assert (Hin2' : (ev2, MediaReady t2) ∈ listeners_of (document s1) t2).
  { unfold listeners_of.
    rewrite (observe_step listeners [] (Dispatch t1 ev1) s s1 t2); done. }
  destruct (readiness_dispatch s1 t2 ev2 Hwf1 Hin2') as (_ & Ht2'' & Hd2).
  destruct (mediaReady_attaches t2 s1 Hwf1 Ht2 Ht2'')
    as (s2 & Hs2 & _ & _ & Ham2 & _ & Hoff).
  rewrite <- Hd2 in Hs2.
  exists s1, s2. repeat (split; [done|]). intros Hne. by apply Hoff.
Qed.

(** X5. [render] of tool data whose file descriptor has a [url] does what
    [fillImage] of that url does and returns the wrapper: the button is
    hidden, while the wrapper's class list, the nodes and the attached media
    are unchanged until the readiness signal. *)
Theorem render_with_file (IconPicture : string) (p : ConstructorParams)
    (calls : list Call) (s : Ui) (toolData : ImageToolData)
    (f : gmap string string) (url : string) :
  run IconPicture p calls = Ok s →
  file toolData = Some f → f !! "url" = Some url →
  ∃ s', fillImage url s = Ok s'
        ∧ render toolData s = Ok (wrapper (nodes s), s')
        ∧ nodes s' = nodes s
        ∧ classes_of (document s') (wrapper (nodes s'))
          = classes_of (document s) (wrapper (nodes s))
        ∧ attached_media s' = attached_media s
        ∧ style_of (document s') (fileButton (nodes s')) "display" = "none".
Proof.
  intros Hrun Hfile Hurl. pose proof (wf_run _ _ _ _ Hrun) as Hwf.
  destruct (fillImage url s) as [s'|] eqn:Hs'.
  2: { by rewrite fillImage_eq in Hs'. }
  pose proof (wf_fillImage url s s' Hwf Hs') as Hwf'.
  pose proof (nodes_fillImage url s s' Hs') as Hn.
  exists s'. split; [done|]. split; [|split; [done|split; [|split]]].
  - unfold render. rewrite Hfile.
    rewrite bool_decide_eq_false_2.
    + unfold file_url. rewrite Hurl. simpl. rewrite Hs'. simpl. by rewrite Hn.
    + intros Hsize. apply map_size_empty_inv in Hsize. subst f.
      by rewrite lookup_empty in Hurl.
  - rewrite fillImage_eq in Hs'. injection Hs' as <-.
    unfold set_document; cbn [document nodes].
    rewrite (wf_fileButton s Hwf), (wf_wrapper s Hwf).
    pose proof (wf_next s Hwf). by look.
  - rewrite !attached_media_wf by done. by rewrite Hn.
  - rewrite fillImage_eq in Hs'. injection Hs' as <-.
    unfold set_document; cbn [document nodes]. rewrite (wf_fileButton s Hwf).
    destruct (wf_alloc s Hwf 2) as [_ [e He]]; [pose proof (wf_next s Hwf); lia|].
    pose proof (wf_next s Hwf).
    look. rewrite He. simpl. unfold setProperty. simpl.
    rewrite lookup_insert_ne by done. by rewrite lookup_insert_eq.
Qed.

Lemma fillImage_pending (url : string) (s : Ui) :
  wf s →
  ∃ s1 ev,
    fillImage url s = Ok s1 ∧ wf s1 ∧ nodes s1 = nodes s
    ∧ (ev, MediaReady (next (document s)))
      ∈ listeners_of (document s1) (next (document s))
    ∧ style_of (document s1) 2 "display" = "none"
    ∧ style_of (document s1) 2 "pointerEvents" = "none".
Proof.
  intros Hwf. pose proof (wf_next s Hwf) as Hn.
  destruct (fillImage url s) as [s1|] eqn:Hs1.
  2: { by rewrite fillImage_eq in Hs1. }
  pose proof (wf_fillImage url s s1 Hwf Hs1) as Hwf1.
  assert (Hnext : next (document s1) = S (next (document s))).
  { rewrite fillImage_eq in Hs1. by injection Hs1 as <-. }
  destruct (wf_media s1 Hwf1 (next (document s))) as [_ [ev Hev]]; [lia..|].
  exists s1, ev. split; [done|]. split; [done|].
  split; [by eapply nodes_fillImage|]. split; [rewrite Hev; apply list_elem_of_here|].
  destruct (wf_alloc s Hwf 2) as [_ [e He]]; [lia|].
  rewrite fillImage_eq in Hs1. injection Hs1 as <-.
  unfold set_document; cbn [document nodes]. rewrite (wf_fileButton s Hwf).
  split; look; rewrite He; simpl; unfold setProperty; simpl.
  - rewrite lookup_insert_ne by done. by rewrite lookup_insert_eq.
  - by rewrite lookup_insert_eq.
Qed.

Lemma clearImage_button (s : Ui) (m : loc) :
  wf s → imageEl (nodes s) = Some m →
  ∃ s', clearImage s = Ok s' ∧ wf s' ∧ nodes s' = nodes s
        ∧ style_of (document s') 2 "display" = "flex"
        ∧ style_of (document s') 2 "pointerEvents" = "auto".
Proof.
  intros Hwf Hm. pose proof (wf_next s Hwf) as Hn.
  destruct (wf_imageEl s Hwf m Hm) as [Hm1 Hm2].
  destruct (clearImage s) as [s'|] eqn:Hs'.
  2: { unfold clearImage in Hs'. by rewrite Hm in Hs'. }
  exists s'. split; [done|].
  split; [apply (wf_step CallClearImage s s' Hwf Hs')|].
  split; [by apply (nodes_step CallClearImage s s')|].
  destruct (wf_alloc s Hwf 2) as [_ [e He]]; [lia|].
  unfold clearImage in Hs'. rewrite Hm, (wf_fileButton s Hwf) in Hs'.
  injection Hs' as <-. unfold set_document; cbn [document nodes].
  split; look; rewrite He; simpl; unfold setProperty; simpl.
  - rewrite lookup_insert_ne by done. by rewrite lookup_insert_eq.
  - by rewrite lookup_insert_eq.
Qed.

Lemma style_of_heap_eq (d d' : Document) (l : loc) (prop : string) :
  heap d' !! l = heap d !! l → style_of d' l prop = style_of d l prop.
Proof. intros H. unfold style_of. by rewrite H. Qed.

(** X11. [clearImage] does not cancel a pending load. On a widget without
    media element, [clearImage] after [fillImage] returns the state
    unchanged; the readiness signal then attaches the requested element and
    the button stays hidden. *)
Theorem clearImage_keeps_pending (IconPicture : string) (p : ConstructorParams)
    (calls : list Call) (s : Ui) (url : string) :
  run IconPicture p calls = Ok s →
  imageEl (nodes s) = None →
  ∃ s1 ev s2,
    fillImage url s = Ok s1
    ∧ clearImage s1 = Ok s1
    ∧ dispatchEvent (next (document s)) ev s1 = Ok s2
    ∧ attached_media s2 = [next (document s)]
    ∧ style_of (document s2) (fileButton (nodes s2)) "display" = "none"
    ∧ style_of (document s2) (fileButton (nodes s2)) "pointerEvents" = "none".
Proof.
  intros Hrun Hm. pose proof (wf_run _ _ _ _ Hrun) as Hwf.
  destruct (fillImage_pending url s Hwf) as (s1 & ev & Hs1 & Hwf1 & Hn1 & Hin & Hd & Hp).
  destruct (readiness_dispatch s1 _ ev Hwf1 Hin) as (Ht1 & Ht2 & Hdisp).
  destruct (mediaReady_attaches _ s1 Hwf1 Ht1 Ht2)
    as (s2 & Hs2 & Hwf2 & _ & Ham & _ & _).
  exists s1, ev, s2. split; [done|]. split.
  { unfold clearImage. by rewrite Hn1, Hm. }
  split; [by rewrite Hdisp|]. split; [done|].
  rewrite (wf_fileButton s2 Hwf2).
  rewrite !(style_of_heap_eq (document s1) (document s2) 2); [done|..];
    by apply (mediaReady_frame _ s1 s2 2 Hwf1 Hs2).
Qed.

(** X12. On a widget with a media element, [fillImage] followed by
    [clearImage] followed by the readiness signal of the new element ends
    with the new element attached and the button visible and interactive
    ([display: flex], [pointerEvents: auto]). *)
Theorem button_visible_with_media (IconPicture : string) (p : ConstructorParams)
    (calls : list Call) (s : Ui) (m : loc) (url : string) :
  run IconPicture p calls = Ok s →
  imageEl (nodes s) = Some m →
  ∃ s1 s2 ev s3,
    fillImage url s = Ok s1
    ∧ clearImage s1 = Ok s2
    ∧ dispatchEvent (next (document s)) ev s2 = Ok s3
    ∧ attached_media s3 = [next (document s)]
    ∧ style_of (document s3) (fileButton (nodes s3)) "display" = "flex"
    ∧ style_of (document s3) (fileButton (nodes s3)) "pointerEvents" = "auto".
Proof.
  intros Hrun Hm. pose proof (wf_run _ _ _ _ Hrun) as Hwf.
  destruct (fillImage_pending url s Hwf) as (s1 & ev & Hs1 & Hwf1 & Hn1 & Hin & _ & _).
  assert (Hm1 : imageEl (nodes s1) = Some m) by (by rewrite Hn1).
  destruct (clearImage_button s1 m Hwf1 Hm1) as (s2 & Hs2 & Hwf2 & Hn2 & Hd & Hp).
  assert (Hin2 : (ev, MediaReady (next (document s)))
                 ∈ listeners_of (document s2) (next (document s))).
  { unfold listeners_of.
    rewrite (observe_step listeners [] CallClearImage s1 s2); try done.
    apply (readiness_dispatch s1 _ ev Hwf1 Hin). }
  destruct (readiness_dispatch s2 _ ev Hwf2 Hin2) as (Ht1 & Ht2 & Hdisp).
  destruct (mediaReady_attaches _ s2 Hwf2 Ht1 Ht2)
    as (s3 & Hs3 & Hwf3 & _ & Ham & _ & _).
  exists s1, s2, ev, s3. split; [done|]. split; [done|].
  split; [by rewrite Hdisp|]. split; [done|].
  rewrite (wf_fileButton s3 Hwf3).
  rewrite !(style_of_heap_eq (document s2) (document s3) 2); [done|..];
    by apply (mediaReady_frame _ s2 s3 2 Hwf2 Hs3).
Qed.

Lemma modify_ext (l : loc) (f g : Element → Element) (d : Document) :
  (∀ e, f e = g e) → modify l f d = modify l g d.
Proof. intros Hfg. unfold modify. f_equal. apply alter_ext. auto. Qed.

Lemma append_token_present (t : string) (l : list string) :
  t ∈ l → DOMTokenList.append_token t l = l.
Proof. intros Hin. unfold DOMTokenList.append_token. by rewrite bool_decide_eq_true_2. Qed.

Lemma append_token_idemp (t : string) (l : list string) :
  DOMTokenList.append_token t (DOMTokenList.append_token t l)
  = DOMTokenList.append_token t l.
Proof. apply append_token_present. rewrite elem_of_append_token. by left. Qed.

Lemma remove_token_idemp (t : string) (l : list string) :
  DOMTokenList.remove_token t (DOMTokenList.remove_token t l)
  = DOMTokenList.remove_token t l.
Proof. apply remove_token_absent. rewrite elem_of_remove_token. by intros [? _]. Qed.

Lemma status_classes_idemp (status : UiState) (cl : list string) :
  status_classes status (status_classes status cl) = status_classes status cl.
Proof.
  assert (Hin : ∀ st, modifier (UiState_value st) ∈ status_classes status cl
                      ↔ st = status).
  { intros st. rewrite elem_of_status_classes. split.
    - intros [Heq | [_ Hne]].
      + apply modifier_inj in Heq. by destruct st, status.
      + by destruct (Hne st).
    - intros ->. by left. }
  generalize dependent (status_classes status cl). intros R Hin.
  assert (Hpresent : modifier (UiState_value status) ∈ R) by (by apply Hin).
  assert (Habsent : ∀ st, st ≠ status → modifier (UiState_value st) ∉ R).
  { intros st Hne. by rewrite Hin. }
  unfold status_classes, UiState_keys; cbn [foldl].
  destruct status; repeat case_bool_decide; try done;
    rewrite ?(append_token_present _ R) by done;
    rewrite ?(remove_token_absent _ R) by (by apply Habsent);
    rewrite ?(append_token_present _ R) by done;
    rewrite ?(remove_token_absent _ R) by (by apply Habsent);
    done.
Qed.

(** X16. In a reachable state [applyTune] with a tune name free of white
    space succeeds; afterwards the modifier of that tune is on the wrapper
    exactly when the status is [true], every other class is on the wrapper
    exactly when it was before, and no other element has changed. *)
Theorem applyTune_effect (IconPicture : string) (p : ConstructorParams)
    (calls : list Call) (s : Ui) (tuneName : string) (status : bool) :
  run IconPicture p calls = Ok s →
  DOMTokenList.has_whitespace tuneName = false →
  ∃ s', applyTune tuneName status s = Ok s'
        ∧ nodes s' = nodes s
        ∧ (modifier tuneName ∈ classes_of (document s') (wrapper (nodes s'))
           ↔ status = true)
        ∧ (∀ x, x ≠ modifier tuneName →
             x ∈ classes_of (document s') (wrapper (nodes s'))
             ↔ x ∈ classes_of (document s) (wrapper (nodes s)))
        ∧ (∀ l, l ≠ wrapper (nodes s) →
             heap (document s') !! l = heap (document s) !! l).
Proof.
  intros Hrun Hws. pose proof (wf_run _ _ _ _ Hrun) as Hwf.
  rewrite applyTune_eq, Hws. eexists. split; [done|]. split; [done|].
  destruct (wf_alloc s Hwf (wrapper (nodes s))) as [_ [e He]].
  { rewrite (wf_wrapper s Hwf). pose proof (wf_next s Hwf). lia. }
  unfold set_document; cbn [document nodes]. unfold classes_of.
  rewrite !lookup_modify, !decide_True, He by done. simpl.
  split; [|split].
  - destruct status.
    + rewrite elem_of_append_token. by split; [|left].
    + rewrite elem_of_remove_token. by split; [intros [? _]|].
  - intros x Hx.
    destruct status; [rewrite elem_of_append_token | rewrite elem_of_remove_token];
      tauto.
  - intros l Hl. by rewrite lookup_alter_ne.
Qed.

(** X17. A second [applyTune] with the same tune and status right after a
    successful one returns the same state. *)
Theorem applyTune_idempotent (tuneName : string) (status : bool) (s s1 : Ui) :
  applyTune tuneName status s = Ok s1 →
  applyTune tuneName status s1 = Ok s1.
Proof.
  rewrite !applyTune_eq. case_match; [done|]. intros [= <-]. f_equal.
  unfold set_document; cbn [api config readOnly nodes document selectFileCalls].
  f_equal. rewrite modify_modify. apply modify_ext. intros e.
  unfold set_classList; simpl. f_equal.
  destruct status; [apply append_token_idemp | apply remove_token_idemp].
Qed.

(** X20. [fillCaption] of one text followed by [fillCaption] of another
    gives the state [fillCaption] of the second text alone gives. *)
Theorem fillCaption_last_wins (a b : string) (s : Ui) :
  (let* s1 := fillCaption a s in fillCaption b s1) = fillCaption b s.
Proof.
  unfold fillCaption. destruct (caption (nodes s)) as [c|] eqn:Hc; simpl; [|by rewrite Hc].
  rewrite Hc. f_equal. unfold set_document;
    cbn [api config readOnly nodes document selectFileCalls].
  f_equal. by rewrite modify_modify.
Qed.

Lemma document_eq (d d' : Document) :
  next d = next d' → (∀ l, heap d !! l = heap d' !! l) → d = d'.
Proof.
  destruct d as [h n], d' as [h' n']; simpl. intros -> Hh. f_equal. by apply map_eq.
Qed.

Lemma setProperty_idemp (prop value : string) (st : gmap string string) :
  setProperty prop value (setProperty prop value st) = setProperty prop value st.
Proof.
  unfold setProperty. case_bool_decide.
  - apply map_eq. intros k. rewrite !lookup_delete. by case_decide.
  - by rewrite insert_insert_eq.
Qed.

(** X14. A second [hidePreloader] right after a successful one returns the
    same state. *)
Theorem hidePreloader_idempotent (s s1 : Ui) :
  hidePreloader s = Ok s1 → hidePreloader s1 = Ok s1.
Proof.
  unfold hidePreloader. destruct (imagePreloader (nodes s)) as [pre|] eqn:Hpre; [|done].
  rewrite toggleStatus_eq. intros [= <-].
  unfold set_document; cbn [api config readOnly nodes document selectFileCalls].
  rewrite Hpre, toggleStatus_eq. f_equal.
  unfold set_document; cbn [api config readOnly nodes document selectFileCalls].
  f_equal. apply document_eq; [done|]. intros l.
  rewrite !lookup_modify.
  repeat case_decide; destruct (heap (document s) !! l) as [e|]; simpl; try done;
    f_equal; unfold set_classList, set_style; simpl; f_equal;
    apply status_classes_idemp || apply setProperty_idemp.
Qed.

(** X13. In a reachable state [clearImage] succeeds, a second [clearImage]
    changes nothing more, and the wrapper's class list is untouched: the
    state modifiers are what they were. *)
Theorem clearImage_idempotent (IconPicture : string) (p : ConstructorParams)
    (calls : list Call) (s : Ui) :
  run IconPicture p calls = Ok s →
  ∃ s1, clearImage s = Ok s1
        ∧ clearImage s1 = Ok s1
        ∧ classes_of (document s1) (wrapper (nodes s1))
          = classes_of (document s) (wrapper (nodes s))
        ∧ active_states s1 = active_states s.
Proof.
  intros Hrun. pose proof (wf_run _ _ _ _ Hrun) as Hwf.
  pose proof (wf_next s Hwf) as Hn.
  unfold clearImage. destruct (imageEl (nodes s)) as [m|] eqn:Hm.
  2: { exists s. by rewrite Hm. }
  destruct (wf_imageEl s Hwf m Hm) as [Hm1 Hm2].
  eexists. split; [done|].
  unfold set_document; cbn [api config readOnly nodes document selectFileCalls].
  rewrite Hm, (wf_fileButton s Hwf), (wf_wrapper s Hwf).
  split; [|split].
  - f_equal.
    f_equal. apply document_eq; [done|]. intros l.
    rewrite !lookup_modify.
    repeat case_decide; try lia; destruct (heap (document s) !! l) as [e|];
      simpl; try done; f_equal; unfold set_attributes, set_style, setProperty;
      simpl; f_equal.
    + apply map_eq. intros k. rewrite !lookup_insert. by repeat case_decide.
    + by rewrite insert_insert_eq.
    + by rewrite insert_insert_eq.
  - by rewrite !classes_of_modify.
  - apply active_states_ext. intros st. cbn [document nodes].
    rewrite (wf_wrapper s Hwf). by rewrite !classes_of_modify.
Qed.

Lemma wrapper_classes_step (c : Call) (s s' : Ui) (x : string) :
  wf s → step c s = Ok s' → (∀ name, x ≠ modifier name) →
  x ∈ classes_of (document s') (wrapper (nodes s'))
  ↔ x ∈ classes_of (document s) (wrapper (nodes s)).
Proof.
  intros Hwf Hstep Hx. pose proof (wf_next s Hwf) as Hn.
  assert (Hfill : ∀ url s1, fillImage url s = Ok s1 →
    x ∈ classes_of (document s1) (wrapper (nodes s1))
    ↔ x ∈ classes_of (document s) (wrapper (nodes s))).
  { intros url s1. rewrite fillImage_eq. intros [= <-].
    unfold set_document; cbn [document nodes].
    rewrite (wf_fileButton s Hwf), (wf_wrapper s Hwf). by look. }
  assert (Htog : ∀ st s1, toggleStatus st s = Ok s1 →
    x ∈ classes_of (document s1) (wrapper (nodes s1))
    ↔ x ∈ classes_of (document s) (wrapper (nodes s))).
  { intros st s1 H1. apply (wrapper_classes_toggleStatus st); [done..|].
    intros st'. apply Hx. }
  destruct c as [tuneName status|toolData| |url|text| |target type];
    cbn [step] in Hstep.
  - rewrite applyTune_eq in Hstep. case_match; [done|]. injection Hstep as <-.
    unfold set_document; cbn [document nodes]. unfold classes_of.
    rewrite lookup_modify, decide_True by done.
    destruct (heap (document s) !! wrapper (nodes s)); simpl; [|done].
    specialize (Hx tuneName).
    destruct status; [rewrite elem_of_append_token | rewrite elem_of_remove_token];
      tauto.
  - unfold render in Hstep.
    apply result_bind_Ok in Hstep as ([r s1] & H1 & [= <-]).
    apply result_bind_Ok in H1 as (s2 & H2 & [= _ <-]).
    destruct (file toolData) as [f|]; [case_bool_decide|]; eauto.
  - unfold hidePreloader in Hstep. rewrite (wf_imagePreloader s Hwf) in Hstep.
    assert (Hwf1 : wf (set_document
        (modify 3 (set_style (setProperty "backgroundImage" ""))) s))
      by (by apply wf_modify).
    etrans; [apply (wrapper_classes_toggleStatus Empty _ _ x Hwf1 Hstep);
             intros st'; apply Hx|].
    unfold set_document; cbn [document nodes]. by rewrite classes_of_modify.
  - eauto.
  - unfold fillCaption in Hstep. rewrite (wf_caption s Hwf) in Hstep.
    injection Hstep as <-. unfold set_document; cbn [document nodes].
    by rewrite classes_of_modify.
  - unfold clearImage in Hstep.
    destruct (imageEl (nodes s)) as [m|]; injection Hstep as <-; [|done].
    unfold set_document; cbn [document nodes]. by rewrite !classes_of_modify.
  - destruct (decide (target < 5)) as [Hlt|Hge].
    { rewrite dispatchEvent_skeleton in Hstep by done.
      by case_decide; injection Hstep as <-. }
    destruct (decide (target < next (document s))) as [Hlt|Hge'].
    2: { rewrite dispatchEvent_unallocated in Hstep by (done || lia).
         by injection Hstep as <-. }
    destruct (dispatchEvent_media target type s) as (ev' & Hev & Hd); [done|lia|done|].
    rewrite Hd in Hstep. case_decide; [|by injection Hstep as <-].
    rewrite mediaReady_eq in Hstep by done. injection Hstep as <-.
    unfold set_document, set_nodes, set_imageEl; cbn [document nodes wrapper].
    rewrite (wf_wrapper s Hwf). unfold classes_of.
    destruct (imageEl (nodes s)); look;
      (destruct (heap (document s) !! 0); simpl; [|done]);
      rewrite elem_of_status_classes; split; [intros [->|[? _]]| |intros [->|[? _]]|];
      try done; try (by destruct (Hx (UiState_value Filled))); auto.
Qed.

Lemma wrapper_not_modifier (name : string) : CSS.wrapper ≠ modifier name.
Proof. unfold modifier, CSS.wrapper. cbn. intros H. by simplify_eq. Qed.

Lemma wrapper_classes_run (calls : list Call) (s0 s : Ui) (x : string) :
  wf s0 → for_each step calls s0 = Ok s → (∀ name, x ≠ modifier name) →
  x ∈ classes_of (document s) (wrapper (nodes s))
  ↔ x ∈ classes_of (document s0) (wrapper (nodes s0)).
Proof.
  intros Hwf0 Hrun Hx. revert s0 Hwf0 Hrun.
  induction calls as [|c calls IH]; intros s0 Hwf0 Hrun; simpl in Hrun.
  - by injection Hrun as <-.
  - apply result_bind_Ok in Hrun as (s1 & Hs1 & Hrun).
    rewrite (IH s1 (wf_step c s0 s1 Hwf0 Hs1) Hrun).
    by apply (wrapper_classes_step c).
Qed.

Lemma api_step (c : Call) (s s' : Ui) :
  wf s → step c s = Ok s' → api s' = api s ∧ readOnly s' = readOnly s.
Proof.
  intros Hwf. destruct c as [tuneName status|toolData| |url|text| |target type];
    cbn [step].
  - rewrite applyTune_eq. case_match; [done|]. by intros [= <-].
  - unfold render. intros H.
    apply result_bind_Ok in H as ([r s1] & H1 & [= <-]).
    apply result_bind_Ok in H1 as (s2 & H2 & [= _ <-]).
    destruct (file toolData) as [f|]; [case_bool_decide|];
      rewrite ?toggleStatus_eq, ?fillImage_eq in H2; by injection H2 as <-.
  - unfold hidePreloader. destruct (imagePreloader (nodes s)); [|done].
    rewrite toggleStatus_eq. by intros [= <-].
  - rewrite fillImage_eq. by intros [= <-].
  - unfold fillCaption. by destruct (caption (nodes s)); intros [= <-].
  - unfold clearImage. by destruct (imageEl (nodes s)); intros [= <-].
  - destruct (decide (target < 5)) as [Hlt|Hge].
    { rewrite dispatchEvent_skeleton by done. by case_decide; intros [= <-]. }
    destruct (decide (target < next (document s))) as [Hlt|Hge'].
    2: { rewrite dispatchEvent_unallocated by (done || lia). by intros [= <-]. }
    destruct (dispatchEvent_media target type s) as (ev' & Hev & ->); [done|lia|done|].
    case_decide; [|by intros [= <-]].
    rewrite mediaReady_eq by done. by intros [= <-].
Qed.

Lemma api_run (calls : list Call) (s0 s : Ui) :
  wf s0 → for_each step calls s0 = Ok s → api s = api s0 ∧ readOnly s = readOnly s0.
Proof.
  intros Hwf0 Hrun. revert s0 Hwf0 Hrun.
  induction calls as [|c calls IH]; intros s0 Hwf0 Hrun; simpl in Hrun.
  - by injection Hrun as <-.
  - apply result_bind_Ok in Hrun as (s1 & Hs1 & Hrun).
    destruct (IH s1 (wf_step c s0 s1 Hwf0 Hs1) Hrun) as [-> ->].
    by apply (api_step c).
Qed.

(** X18. The api, the configuration and the read-only flag of a widget are
    those given to the constructor, whatever calls follow. The class
    [image-tool] is on the wrapper in every reachable state, and so is the
    host's block class unless it has the form [image-tool--name]. *)
Theorem base_classes_kept (IconPicture : string) (p : ConstructorParams)
    (calls : list Call) (s : Ui) :
  run IconPicture p calls = Ok s →
  api s = param_api p ∧ config s = param_config p ∧ readOnly s = param_readOnly p
  ∧ CSS.wrapper ∈ classes_of (document s) (wrapper (nodes s))
  ∧ ((∀ name, CSS.baseClass (param_api p) ≠ modifier name) →
     CSS.baseClass (param_api p) ∈ classes_of (document s) (wrapper (nodes s))).
Proof.
  intros Hrun0. pose proof (config_run _ _ _ _ Hrun0) as Hcfg.
  unfold run in Hrun0. apply result_bind_Ok in Hrun0 as (s0 & Hc & Hrun).
  pose proof (wf_constructor _ _ _ Hc) as Hwf0.
  destruct (api_run calls s0 s Hwf0 Hrun) as [Hapi Hro].
  assert (H0 : api s0 = param_api p ∧ readOnly s0 = param_readOnly p
               ∧ CSS.wrapper ∈ classes_of (document s0) (wrapper (nodes s0))
               ∧ CSS.baseClass (param_api p)
                 ∈ classes_of (document s0) (wrapper (nodes s0))).
  { apply constructor_Ok in Hc as (cl0 & cl2 & Hcl0 & _ & ->).
    cbn [document nodes wrapper api readOnly]. unfold classes_of, skeleton; cbn [heap].
    rewrite lookup_insert_eq. simpl.
    unfold DOMTokenList.add in Hcl0.
    apply result_bind_Ok in Hcl0 as (? & _ & [= <-]). cbn [foldl].
    rewrite !elem_of_append_token. auto 10. }
  destruct H0 as (Ha0 & Hr0 & Hw0 & Hb0).
  split; [congruence|]. split; [done|]. split; [congruence|]. split.
  - rewrite (wrapper_classes_run calls s0 s); [done..|]. apply wrapper_not_modifier.
  - intros Hb. by rewrite (wrapper_classes_run calls s0 s).
Qed.

Lemma mediaReady_readOnly (b : bool) (t : loc) (s : Ui) :
  mediaReady t (set_readOnly b s) = result_map (set_readOnly b) (mediaReady t s).
Proof.
  unfold mediaReady, removeChild, set_readOnly.
  cbn [nodes document api config readOnly selectFileCalls].
  destruct (imageEl (nodes s)) as [old|]; [case_bool_decide|];
    cbn [result_bind]; rewrite ?toggleStatus_eq; try done;
    cbn [result_bind result_map set_document set_nodes nodes document api config
         readOnly selectFileCalls set_imageEl imagePreloader];
    by destruct (imagePreloader (nodes s)).
Qed.

Lemma run_listeners_readOnly (b : bool) (ls : list Listener) (s : Ui) :
  for_each run_listener ls (set_readOnly b s)
  = result_map (set_readOnly b) (for_each run_listener ls s).
Proof.
  revert s. induction ls as [|cb ls IH]; intros s; simpl; [done|].
  assert (Hcb : run_listener cb (set_readOnly b s)
                = result_map (set_readOnly b) (run_listener cb s)).
  { destruct cb; [done | apply mediaReady_readOnly]. }
  rewrite Hcb. destruct (run_listener cb s); simpl; [apply IH | done].
Qed.

Lemma step_readOnly (b : bool) (c : Call) (s : Ui) :
  step c (set_readOnly b s) = result_map (set_readOnly b) (step c s).
Proof.
  destruct c as [tuneName status|toolData| |url|text| |target type]; cbn [step].
  - rewrite !applyTune_eq. by case_match.
  - unfold render. destruct (file toolData) as [f|]; [case_bool_decide|];
      by rewrite ?toggleStatus_eq, ?fillImage_eq.
  - unfold hidePreloader. cbn [set_readOnly nodes].
    destruct (imagePreloader (nodes s)); [|done]. by rewrite !toggleStatus_eq.
  - by rewrite !fillImage_eq.
  - unfold fillCaption. cbn [set_readOnly nodes]. by destruct (caption (nodes s)).
  - unfold clearImage. cbn [set_readOnly nodes]. by destruct (imageEl (nodes s)).
  - unfold dispatchEvent. apply run_listeners_readOnly.
Qed.

Lemma constructor_readOnly (IconPicture : string) (p : ConstructorParams) (b : bool) :
  constructor IconPicture (mkParams (param_api p) (param_config p) b)
  = result_map (set_readOnly b) (constructor IconPicture p).
Proof.
  unfold constructor, createFileButton, make. cbn [param_api param_config param_readOnly].
  destruct (DOMTokenList.add [CSS.baseClass (param_api p); CSS.wrapper] [])
    as [cl0|]; [|done].
  cbn [result_bind createElement fst snd empty_document next].
  change (DOMTokenList.add [CSS.imageContainer] [])
    with (Ok (A:=list string) [CSS.imageContainer]).
  cbn [result_bind createElement fst snd modify next].
  destruct (DOMTokenList.add [CSS.button (param_api p)] []) as [cl2|]; [|done].
  reflexivity.
Qed.

(** X21. The read-only flag is stored and never read: a run with another
    value of the flag throws where the original run throws and otherwise
    ends in the same state, up to the stored flag. *)
Theorem readOnly_is_not_read (IconPicture : string) (p : ConstructorParams)
    (b : bool) (calls : list Call) :
  run IconPicture (mkParams (param_api p) (param_config p) b) calls
  = result_map (set_readOnly b) (run IconPicture p calls).
Proof.
  unfold run. rewrite constructor_readOnly.
  destruct (constructor IconPicture p) as [s0|]; simpl; [|done].
  revert s0. induction calls as [|c calls IH]; intros s0; simpl; [done|].
  rewrite step_readOnly. destruct (step c s0); simpl; [apply IH | done].
Qed.

Lemma media_step (c : Call) (s s' : Ui) (l : loc) :
  wf s → step c s = Ok s' → is_clearImage c = false →
  5 ≤ l → l < next (document s) →
  heap (document s') !! l = heap (document s) !! l.
Proof.
  intros Hwf Hstep Hc Hl1 Hl2.
  assert (Hfill : ∀ url s1, fillImage url s = Ok s1 →
    heap (document s1) !! l = heap (document s) !! l).
  { intros url s1. rewrite fillImage_eq. intros [= <-].
    unfold set_document; cbn [document]. rewrite (wf_fileButton s Hwf). by look. }
  assert (Htog : ∀ st s1, toggleStatus st s = Ok s1 →
    heap (document s1) !! l = heap (document s) !! l).
  { intros st s1. rewrite toggleStatus_eq. intros [= <-].
    unfold set_document; cbn [document]. rewrite (wf_wrapper s Hwf). by look. }
  destruct c as [tuneName status|toolData| |url|text| |target type];
    try done; cbn [step] in Hstep.
  - rewrite applyTune_eq in Hstep. case_match; [done|]. injection Hstep as <-.
    unfold set_document; cbn [document]. rewrite (wf_wrapper s Hwf). by look.
  - unfold render in Hstep.
    apply result_bind_Ok in Hstep as ([r s1] & H1 & [= <-]).
    apply result_bind_Ok in H1 as (s2 & H2 & [= _ <-]).
    destruct (file toolData) as [f|]; [case_bool_decide|]; eauto.
  - unfold hidePreloader in Hstep. rewrite (wf_imagePreloader s Hwf) in Hstep.
    rewrite toggleStatus_eq in Hstep. injection Hstep as <-.
    unfold set_document; cbn [document nodes]. rewrite (wf_wrapper s Hwf). by look.
  - eauto.
  - unfold fillCaption in Hstep. rewrite (wf_caption s Hwf) in Hstep.
    injection Hstep as <-. unfold set_document; cbn [document]. by look.
  - destruct (decide (target < 5)) as [Hlt|Hge].
    { rewrite dispatchEvent_skeleton in Hstep by done.
      by case_decide; injection Hstep as <-. }
    destruct (decide (target < next (document s))) as [Hlt|Hge'].
    2: { rewrite dispatchEvent_unallocated in Hstep by (done || lia).
         by injection Hstep as <-. }
    destruct (dispatchEvent_media target type s) as (ev' & Hev & Hd); [done|lia|done|].
    rewrite Hd in Hstep. case_decide; [|by injection Hstep as <-].
    apply (mediaReady_frame target s s' l Hwf Hstep); lia.
Qed.

Lemma media_tag_bounds (s : Ui) (l : loc) :
  wf s → is_media_tag (tag_of (document s) l) = true →
  5 ≤ l ∧ l < next (document s).
Proof.
  intros Hwf Htag. destruct (decide (l < 5)) as [Hlt|Hge].
  { by rewrite (wf_skeleton_tags s Hwf l Hlt) in Htag. }
  split; [lia|]. apply (wf_alloc s Hwf). unfold tag_of in Htag.
  by destruct (heap (document s) !! l).
Qed.

(** X9. A call other than [clearImage] leaves every existing media element
    exactly as it is (source, properties, classes, style and listeners). *)
Theorem media_element_untouched (IconPicture : string) (p : ConstructorParams)
    (calls : list Call) (s : Ui) (c : Call) (s' : Ui) (l : loc) :
  run IconPicture p calls = Ok s →
  step c s = Ok s' →
  is_clearImage c = false →
  is_media_tag (tag_of (document s) l) = true →
  heap (document s') !! l = heap (document s) !! l.
Proof.
  intros Hrun Hstep Hc Htag. pose proof (wf_run _ _ _ _ Hrun) as Hwf.
  destruct (media_tag_bounds s l Hwf Htag). by apply (media_step c).
Qed.

(** X10. No call resets the [display] of a media element: once it is
    [none], as [clearImage] sets it, it is [none] after every later sequence
    of calls, also when the element is attached again. *)
Theorem cleared_stays_hidden (IconPicture : string) (p : ConstructorParams)
    (calls calls' : list Call) (s s' : Ui) (l : loc) :
  run IconPicture p calls = Ok s →
  for_each step calls' s = Ok s' →
  is_media_tag (tag_of (document s) l) = true →
  style_of (document s) l "display" = "none" →
  style_of (document s') l "display" = "none".
Proof.
  intros Hrun Hcalls Htag. pose proof (wf_run _ _ _ _ Hrun) as Hwf. clear Hrun.
  destruct (media_tag_bounds s l Hwf Htag) as [Hl1 Hl2]. clear Htag.
  revert s Hwf Hcalls Hl2.
  induction calls' as [|c calls' IH]; intros s Hwf Hcalls Hl2 Hnone; simpl in Hcalls.
  - by injection Hcalls as <-.
  - apply result_bind_Ok in Hcalls as (s1 & Hs1 & Hcalls).
    apply (IH s1 (wf_step c s s1 Hwf Hs1) Hcalls).
    { pose proof (next_step c s s1 Hwf Hs1). lia. }
    destruct (is_clearImage c) eqn:Hc.
    + destruct c; try done. cbn [step] in Hs1. unfold clearImage in Hs1.
      destruct (imageEl (nodes s)) as [m|]; injection Hs1 as <-; [|done].
      unfold set_document; cbn [document]. rewrite (wf_fileButton s Hwf).
      destruct (decide (m = l)) as [->|Hne].
      * destruct (wf_alloc s Hwf l) as [_ [e He]]; [done|].
        look. rewrite He. simpl. unfold setProperty. simpl. by rewrite lookup_insert_eq.
      * rewrite <- Hnone. by look.
    + rewrite <- Hnone. apply style_of_heap_eq. by apply (media_step c).
Qed.

Lemma preloader_step (c : Call) (s s' : Ui) :
  wf s → step c s = Ok s' →
  heap (document s) !! 3 = Some preloader_element →
  heap (document s') !! 3 = Some preloader_element.
Proof.
  intros Hwf Hstep H3. pose proof (wf_next s Hwf) as Hn.
  assert (Hfill : ∀ url s1, fillImage url s = Ok s1 →
    heap (document s1) !! 3 = Some preloader_element).
  { intros url s1. rewrite fillImage_eq. intros [= <-].
    unfold set_document; cbn [document]. rewrite (wf_fileButton s Hwf). by look. }
  assert (Htog : ∀ st s1, toggleStatus st s = Ok s1 →
    heap (document s1) !! 3 = Some preloader_element).
  { intros st s1. rewrite toggleStatus_eq. intros [= <-].
    unfold set_document; cbn [document]. rewrite (wf_wrapper s Hwf). by look. }
  destruct c as [tuneName status|toolData| |url|text| |target type];
    cbn [step] in Hstep.
  - rewrite applyTune_eq in Hstep. case_match; [done|]. injection Hstep as <-.
    unfold set_document; cbn [document]. rewrite (wf_wrapper s Hwf). by look.
  - unfold render in Hstep.
    apply result_bind_Ok in Hstep as ([r s1] & H1 & [= <-]).
    apply result_bind_Ok in H1 as (s2 & H2 & [= _ <-]).
    destruct (file toolData) as [f|]; [case_bool_decide|]; eauto.
  - unfold hidePreloader in Hstep. rewrite (wf_imagePreloader s Hwf) in Hstep.
    rewrite toggleStatus_eq in Hstep. injection Hstep as <-.
    unfold set_document; cbn [document nodes]. rewrite (wf_wrapper s Hwf).
    look. by rewrite H3.
  - eauto.
  - unfold fillCaption in Hstep. rewrite (wf_caption s Hwf) in Hstep.
    injection Hstep as <-. unfold set_document; cbn [document]. by look.
  - unfold clearImage in Hstep.
    destruct (imageEl (nodes s)) as [m|] eqn:Hm; injection Hstep as <-; [|done].
    destruct (wf_imageEl s Hwf m Hm).
    unfold set_document; cbn [document]. rewrite (wf_fileButton s Hwf). by look.
  - destruct (decide (target < 5)) as [Hlt|Hge].
    { rewrite dispatchEvent_skeleton in Hstep by done.
      by case_decide; injection Hstep as <-. }
    destruct (decide (target < next (document s))) as [Hlt|Hge'].
    2: { rewrite dispatchEvent_unallocated in Hstep by (done || lia).
         by injection Hstep as <-. }
    destruct (dispatchEvent_media target type s) as (ev' & Hev & Hd); [done|lia|done|].
    rewrite Hd in Hstep. case_decide; [|by injection Hstep as <-].
    rewrite mediaReady_eq in Hstep by done. injection Hstep as <-.
    unfold set_document, set_nodes; cbn [document].
    destruct (imageEl (nodes s)); look; by rewrite H3.
Qed.

(** X15. In every reachable state the preloader is exactly the element the
    constructor made: no call ever gives it a background image, so the
    clearing in [hidePreloader] and in the readiness listener finds nothing
    to clear. *)
Theorem preloader_untouched (IconPicture : string) (p : ConstructorParams)
    (calls : list Call) (s : Ui) :
  run IconPicture p calls = Ok s →
  ∃ preloader,
    imagePreloader (nodes s) = Some preloader
    ∧ heap (document s) !! preloader = Some preloader_element
    ∧ style_of (document s) preloader "backgroundImage" = "".
Proof.
  intros Hrun. pose proof (wf_run _ _ _ _ Hrun) as Hwf.
  exists 3. split; [by apply wf_imagePreloader|].
  enough (H3 : heap (document s) !! 3 = Some preloader_element).
  { split; [done|]. unfold style_of. by rewrite H3. }
  clear Hwf. unfold run in Hrun. apply result_bind_Ok in Hrun as (s0 & Hc & Hrun).
  pose proof (wf_constructor _ _ _ Hc) as Hwf0.
  assert (H0 : heap (document s0) !! 3 = Some preloader_element).
  { by apply constructor_Ok in Hc as (cl0 & cl2 & _ & _ & ->). }
  clear Hc. revert s0 Hwf0 Hrun H0.
  induction calls as [|c calls IH]; intros s0 Hwf0 Hrun H0; simpl in Hrun.
  - by injection Hrun as <-.
  - apply result_bind_Ok in Hrun as (s1 & Hs1 & Hrun).
    apply (IH s1 (wf_step c s0 s1 Hwf0 Hs1) Hrun).
    by apply (preloader_step c s0 s1).
Qed.

Lemma uploading_step (c : Call) (s s' : Ui) :
  wf s → step c s = Ok s' → sets_uploading c = false →
  modifier (UiState_value Uploading) ∈ classes_of (document s') (wrapper (nodes s')) →
  modifier (UiState_value Uploading) ∈ classes_of (document s) (wrapper (nodes s)).
Proof.
  intros Hwf Hstep Hc. pose proof (wf_next s Hwf) as Hn.
  assert (Hfill : ∀ url s1, fillImage url s = Ok s1 →
    classes_of (document s1) (wrapper (nodes s1))
    = classes_of (document s) (wrapper (nodes s))).
  { intros url s1. rewrite fillImage_eq. intros [= <-].
    unfold set_document; cbn [document nodes].
    rewrite (wf_fileButton s Hwf), (wf_wrapper s Hwf). by look. }
  assert (Htog : ∀ st s0 s1, st ≠ Uploading → toggleStatus st s0 = Ok s1 →
    modifier (UiState_value Uploading) ∉ classes_of (document s1) (wrapper (nodes s1))).
  { intros st s0 s1 Hst. rewrite toggleStatus_eq. intros [= <-].
    unfold set_document; cbn [document nodes]. unfold classes_of.
    rewrite lookup_modify, decide_True by done.
    destruct (heap (document s0) !! wrapper (nodes s0)); simpl;
      [|by intros ?%elem_of_nil].
    rewrite elem_of_status_classes. intros [Heq%modifier_inj | [_ Hne]].
    - by destruct st.
    - by destruct (Hne Uploading). }
  destruct c as [tuneName status|toolData| |url|text| |target type];
    cbn [step] in Hstep.
  - rewrite applyTune_eq in Hstep. case_match; [done|]. injection Hstep as <-.
    unfold set_document; cbn [document nodes]. unfold classes_of.
    rewrite lookup_modify, decide_True by done.
    destruct (heap (document s) !! wrapper (nodes s)); simpl; [|done].
    destruct status.
    + rewrite elem_of_append_token. intros [Heq%modifier_inj|]; [|done].
      simpl in Hc. by rewrite bool_decide_eq_true_2 in Hc.
    + rewrite elem_of_remove_token. by intros [_ ?].
  - unfold render in Hstep.
    apply result_bind_Ok in Hstep as ([r s1] & H1 & [= <-]).
    apply result_bind_Ok in H1 as (s2 & H2 & [= _ <-]).
    destruct (file toolData) as [f|]; [case_bool_decide|];
      try (intros Hin; by destruct (Htog Empty s s2)).
    by rewrite (Hfill _ _ H2).
  - unfold hidePreloader in Hstep. rewrite (wf_imagePreloader s Hwf) in Hstep.
    intros Hin. by destruct (Htog Empty _ s' ltac:(done) Hstep).
  - by rewrite (Hfill _ _ Hstep).
  - unfold fillCaption in Hstep. rewrite (wf_caption s Hwf) in Hstep.
    injection Hstep as <-. unfold set_document; cbn [document nodes].
    by rewrite classes_of_modify.
  - unfold clearImage in Hstep.
    destruct (imageEl (nodes s)) as [m|]; injection Hstep as <-; [|done].
    unfold set_document; cbn [document nodes]. by rewrite !classes_of_modify.
  - destruct (decide (target < 5)) as [Hlt|Hge].
    { rewrite dispatchEvent_skeleton in Hstep by done.
      by case_decide; injection Hstep as <-. }
    destruct (decide (target < next (document s))) as [Hlt|Hge'].
    2: { rewrite dispatchEvent_unallocated in Hstep by (done || lia).
         by injection Hstep as <-. }
    destruct (dispatchEvent_media target type s) as (ev' & Hev & Hd); [done|lia|done|].
    rewrite Hd in Hstep. case_decide; [|by injection Hstep as <-].
    destruct (mediaReady_attaches target s) as (s1 & Hs1 & _ & _ & _ & Hact & _);
      [done|lia|done|].
    rewrite Hs1 in Hstep. injection Hstep as <-. intros Hin.
    assert (Hup : Uploading ∈ active_states s1).
    { unfold active_states. apply list_elem_of_filter. split; [done|].
      unfold UiState_keys. rewrite !elem_of_cons. auto. }
    rewrite Hact in Hup. by apply list_elem_of_singleton in Hup.
Qed.

(** X19. The Uploading modifier is never on the wrapper, unless the host's
    block class is that modifier or [applyTune("uploading", true)] has been
    called: [toggleStatus] is only ever called with Empty or Filled. *)
Theorem uploading_never_entered (IconPicture : string) (p : ConstructorParams)
    (calls : list Call) (s : Ui) :
  run IconPicture p calls = Ok s →
  forallb (λ c, negb (sets_uploading c)) calls = true →
  CSS.baseClass (param_api p) ≠ modifier (UiState_value Uploading) →
  Uploading ∉ active_states s.
Proof.
  intros Hrun Hcalls Hbase.
  enough (Hnin : modifier (UiState_value Uploading)
                 ∉ classes_of (document s) (wrapper (nodes s))).
  { unfold active_states. rewrite list_elem_of_filter. by intros [? _]. }
  unfold run in Hrun. apply result_bind_Ok in Hrun as (s0 & Hc & Hrun).
  pose proof (wf_constructor _ _ _ Hc) as Hwf0.
  assert (H0 : modifier (UiState_value Uploading)
               ∉ classes_of (document s0) (wrapper (nodes s0))).
  { apply constructor_Ok in Hc as (cl0 & cl2 & Hcl0 & _ & ->).
    cbn [document nodes wrapper]. unfold classes_of, skeleton; cbn [heap].
    rewrite lookup_insert_eq. simpl.
    unfold DOMTokenList.add in Hcl0.
    apply result_bind_Ok in Hcl0 as (? & _ & [= <-]). cbn [foldl].
    rewrite !elem_of_append_token, elem_of_nil.
    intros [Heq | [Heq | []]]; [|by symmetry in Heq].
    symmetry in Heq. by apply wrapper_not_modifier in Heq. }
  clear Hc. revert s0 Hwf0 Hrun H0.
  induction calls as [|c calls IH]; intros s0 Hwf0 Hrun H0; simpl in *.
  - by injection Hrun as <-.
  - apply andb_prop in Hcalls as [Hc Hcalls].
    apply result_bind_Ok in Hrun as (s1 & Hs1 & Hrun).
    apply (IH Hcalls s1 (wf_step c s0 s1 Hwf0 Hs1) Hrun).
    intros Hin. apply H0. apply (uploading_step c s0 s1 Hwf0 Hs1); [|done].
    by apply negb_true_iff.
Qed.

Lemma content_step (c : Call) (s s' : Ui) (l : loc) :
  wf s → step c s = Ok s' →
  content_of (document s') l
  = match c with
    | CallFillCaption text =>
        if decide (l = 4) then ParsedFrom text else content_of (document s) l
    | _ => content_of (document s) l
    end.
Proof.
  intros Hwf Hstep. pose proof (wf_next s Hwf) as Hn. unfold content_of.
  assert (Hnone : heap (document s) !! next (document s) = None).
  { apply eq_None_not_Some. rewrite (wf_alloc s Hwf). lia. }
  assert (Hfill : ∀ url s1, fillImage url s = Ok s1 →
    from_option fragment (ParsedFrom "") (heap (document s1) !! l)
    = from_option fragment (ParsedFrom "") (heap (document s) !! l)).
  { intros url s1. rewrite fillImage_eq. intros [= <-].
    unfold set_document; cbn [document]. rewrite (wf_fileButton s Hwf).
    look; rewrite ?Hnone; try done; by destruct (heap (document s) !! 2). }
  clear Hnone.
  assert (Htog : ∀ st s1, toggleStatus st s = Ok s1 →
    from_option fragment (ParsedFrom "") (heap (document s1) !! l)
    = from_option fragment (ParsedFrom "") (heap (document s) !! l)).
  { intros st s1. rewrite toggleStatus_eq. intros [= <-].
    unfold set_document; cbn [document]. by apply observe_modify. }
  destruct c as [tuneName status|toolData| |url|text| |target type];
    cbn [step] in Hstep.
  - rewrite applyTune_eq in Hstep. case_match; [done|]. injection Hstep as <-.
    unfold set_document; cbn [document]. by apply observe_modify.
  - unfold render in Hstep.
    apply result_bind_Ok in Hstep as ([r s1] & H1 & [= <-]).
    apply result_bind_Ok in H1 as (s2 & H2 & [= _ <-]).
    destruct (file toolData) as [f|]; [case_bool_decide|]; eauto.
  - unfold hidePreloader in Hstep. rewrite (wf_imagePreloader s Hwf) in Hstep.
    rewrite toggleStatus_eq in Hstep. injection Hstep as <-.
    unfold set_document; cbn [document nodes]. by rewrite !observe_modify.
  - eauto.
  - unfold fillCaption in Hstep. rewrite (wf_caption s Hwf) in Hstep.
    injection Hstep as <-. unfold set_document; cbn [document].
    rewrite lookup_modify. case_decide as H4; subst.
    + rewrite decide_True by done.
      by destruct (wf_alloc s Hwf 4) as [_ [e ->]]; [lia|].
    + by rewrite decide_False.
  - unfold clearImage in Hstep.
    destruct (imageEl (nodes s)) as [m|]; injection Hstep as <-; [|done].
    unfold set_document; cbn [document]. by rewrite !observe_modify.
  - destruct (decide (target < 5)) as [Hlt|Hge].
    { rewrite dispatchEvent_skeleton in Hstep by done.
      by case_decide; injection Hstep as <-. }
    destruct (decide (target < next (document s))) as [Hlt|Hge'].
    2: { rewrite dispatchEvent_unallocated in Hstep by (done || lia).
         by injection Hstep as <-. }
    destruct (dispatchEvent_media target type s) as (ev' & Hev & Hd); [done|lia|done|].
    rewrite Hd in Hstep. case_decide; [|by injection Hstep as <-].
    rewrite mediaReady_eq in Hstep by done. injection Hstep as <-.
    unfold set_document, set_nodes; cbn [document].
    destruct (imageEl (nodes s)); look; by destruct (heap (document s) !! _).
Qed.

(** Apart from the caption, an element has the content it had when the
    constructor returned: the label for the button, nothing for the others,
    the media elements included. *)
Lemma content_run (IconPicture : string) (p : ConstructorParams)
    (calls : list Call) (s : Ui) (l : loc) :
  run IconPicture p calls = Ok s → l ≠ 4 →
  content_of (document s) l
  = if decide (l = 2)
    then ParsedFrom
           (default (IconPicture +:+ " " +:+ i18n_t (param_api p) "Select an Image")
                    (buttonContent (param_config p)))
    else ParsedFrom "".
Proof.
  unfold run. intros Hrun Hl.
  apply result_bind_Ok in Hrun as (s0 & Hc & Hrun).
  pose proof (wf_constructor _ _ _ Hc) as Hwf0.
  assert (H0 : content_of (document s0) l
    = if decide (l = 2)
      then ParsedFrom
             (default (IconPicture +:+ " " +:+ i18n_t (param_api p) "Select an Image")
                      (buttonContent (param_config p)))
      else ParsedFrom "").
  { apply constructor_Ok in Hc as (cl0 & cl2 & _ & _ & ->).
    cbn [document]. unfold content_of. look; done. }
  rewrite <- H0. clear Hc H0. revert s0 Hwf0 Hrun.
  induction calls as [|c calls IH]; intros s0 Hwf0 Hrun; simpl in Hrun.
  - by injection Hrun as <-.
  - apply result_bind_Ok in Hrun as (s1 & Hs1 & Hrun).
    rewrite (IH s1 (wf_step c s0 s1 Hwf0 Hs1) Hrun).
    rewrite (content_step c s0 s1 l Hwf0 Hs1).
    destruct c; try done. by rewrite decide_False.
Qed.

(** X2. The skeleton is fixed. In every reachable state the five nodes of
    [nodes] are the ones the constructor made. The children of the wrapper
    are exactly the media container and the button, and those of the
    container are exactly the preloader followed by the attached media:
    nothing was parsed into either, and these are the nodes appended to
    them. The children of the button are exactly the nodes parsed from its
    label, with no node appended after them. The preloader and the attached
    media have no children. *)
Theorem skeleton_kept (IconPicture : string) (p : ConstructorParams)
    (calls : list Call) (s : Ui) :
  run IconPicture p calls = Ok s →
  ∃ s0 preloader,
    constructor IconPicture p = Ok s0
    ∧ wrapper (nodes s) = wrapper (nodes s0)
    ∧ imageContainer (nodes s) = imageContainer (nodes s0)
    ∧ fileButton (nodes s) = fileButton (nodes s0)
    ∧ imagePreloader (nodes s) = imagePreloader (nodes s0)
    ∧ caption (nodes s) = caption (nodes s0)
    ∧ imagePreloader (nodes s) = Some preloader
    ∧ content_of (document s) (wrapper (nodes s)) = ParsedFrom ""
    ∧ children_of (document s) (wrapper (nodes s))
      = [imageContainer (nodes s); fileButton (nodes s)]
    ∧ content_of (document s) (imageContainer (nodes s)) = ParsedFrom ""
    ∧ children_of (document s) (imageContainer (nodes s))
      = preloader :: attached_media s
    ∧ content_of (document s) (fileButton (nodes s))
      = ParsedFrom
          (default (IconPicture +:+ " " +:+ i18n_t (param_api p) "Select an Image")
                   (buttonContent (param_config p)))
    ∧ children_of (document s) (fileButton (nodes s)) = []
    ∧ content_of (document s) preloader = ParsedFrom ""
    ∧ children_of (document s) preloader = []
    ∧ ∀ m, m ∈ attached_media s →
        content_of (document s) m = ParsedFrom ""
        ∧ children_of (document s) m = [].
Proof.
  intros Hrun. pose proof (wf_run _ _ _ _ Hrun) as Hwf.
  pose proof (λ l, content_run _ _ _ _ l Hrun) as Hcontent.
  unfold run in Hrun. apply result_bind_Ok in Hrun as (s0 & Hc & _).
  pose proof (wf_constructor _ _ _ Hc) as Hwf0.
  exists s0, 3. split; [done|].
  rewrite (wf_wrapper s Hwf), (wf_wrapper s0 Hwf0), (wf_imageContainer s Hwf),
    (wf_imageContainer s0 Hwf0), (wf_fileButton s Hwf), (wf_fileButton s0 Hwf0),
    (wf_imagePreloader s Hwf), (wf_imagePreloader s0 Hwf0), (wf_caption s Hwf),
    (wf_caption s0 Hwf0), (attached_media_wf s Hwf).
  repeat (split; [done|]).
  split; [by rewrite Hcontent|]. split; [by apply wf_wrapper_children|].
  split; [by rewrite Hcontent|]. split; [by apply wf_container_children|].
  split; [by rewrite Hcontent|]. split; [apply (wf_leaves s Hwf); lia|].
  split; [by rewrite Hcontent|]. split; [apply (wf_leaves s Hwf); lia|].
  intros m Hm.
  assert (5 ≤ m).
  { destruct (imageEl (nodes s)) as [m'|] eqn:Hm'; simpl in Hm;
      [|by apply elem_of_nil in Hm].
    apply list_elem_of_singleton in Hm as ->.
    destruct (wf_imageEl s Hwf m' Hm'). lia. }
  split; [|apply (wf_leaves s Hwf); lia].
  rewrite Hcontent by lia. by rewrite decide_False by lia.
Qed.

(** X3. In every reachable state the children of the button are the nodes
    the host parses from [config.buttonContent] when that is given and
    otherwise from the icon, a space and the translation of "Select an
    Image"; the button's only listener is the click listener; and the
    children of the caption are the nodes parsed from the text of the last
    [fillCaption] among the calls, or none when there was no such call. In
    each case the markup is handed to the parser as it is, and no node is
    appended after the parsed ones. *)
Theorem button_and_caption_content (IconPicture : string) (p : ConstructorParams)
    (calls : list Call) (s : Ui) :
  run IconPicture p calls = Ok s →
  content_of (document s) (fileButton (nodes s))
  = ParsedFrom
      (default (IconPicture +:+ " " +:+ i18n_t (param_api p) "Select an Image")
               (buttonContent (param_config p)))
  ∧ children_of (document s) (fileButton (nodes s)) = []
  ∧ listeners_of (document s) (fileButton (nodes s)) = [("click", SelectFileClick)]
  ∧ ∃ c, caption (nodes s) = Some c
         ∧ content_of (document s) c = ParsedFrom (last_caption calls "")
         ∧ children_of (document s) c = [].
Proof.
  intros Hrun. pose proof (wf_run _ _ _ _ Hrun) as Hwf.
  rewrite (wf_fileButton s Hwf).
  split; [by rewrite (content_run _ _ _ _ 2 Hrun)|].
  split; [apply (wf_leaves s Hwf); lia|].
  split; [by rewrite (wf_skeleton_listeners s Hwf) by lia|].
  exists 4. split; [by apply wf_caption|]. split; [|apply (wf_leaves s Hwf); lia].
  clear Hwf. unfold run in Hrun.
  apply result_bind_Ok in Hrun as (s0 & Hc & Hrun).
  pose proof (wf_constructor _ _ _ Hc) as Hwf0.
  assert (H0 : content_of (document s0) 4 = ParsedFrom "").
  { by apply constructor_Ok in Hc as (cl0 & cl2 & _ & _ & ->). }
  clear Hc. revert H0. generalize "". intros current. revert current s0 Hwf0 Hrun.
  induction calls as [|c calls IH]; intros current s0 Hwf0 Hrun Hcur;
    simpl in Hrun.
  - by injection Hrun as <-.
  - apply result_bind_Ok in Hrun as (s1 & Hs1 & Hrun).
    pose proof (content_step c s0 s1 4 Hwf0 Hs1) as Hc.
    pose proof (wf_step c s0 s1 Hwf0 Hs1) as Hwf1.
    destruct c; cbn [last_caption]; eapply IH; eauto; congruence.
Qed.

(** ** The further properties at the concrete widget *)

Lemma calls_return_witness :
  step (CallApplyTune "with border" true) demo_fresh = Throw InvalidCharacterError.
Proof.
  apply (calls_return demo_icon demo_params [] demo_fresh).
  - vm_compute. reflexivity.
  - exists "with border", true. split; [reflexivity|]. split; reflexivity.
Defined.

Lemma skeleton_kept_witness :
  ∃ preloader,
    children_of (document demo_pending) (imageContainer (nodes demo_pending))
    = preloader :: attached_media demo_pending
    ∧ content_of (document demo_pending) (wrapper (nodes demo_pending)) = ParsedFrom ""
    ∧ content_of (document demo_pending) (fileButton (nodes demo_pending))
      = ParsedFrom "<svg/> Select an Image".
Proof.
  destruct (skeleton_kept demo_icon demo_params
              [CallFillImage "https://x/a.png"; Dispatch 5 "load";
               CallFillImage "https://x/b.mp4"] demo_pending)
    as (s0 & pre & _ & _ & _ & _ & _ & _ & _ & Hw & _ & _ & Hc & Hb & _).
  - vm_compute. reflexivity.
  - exists pre. split; [exact Hc | split; [exact Hw | exact Hb]].
Defined.

Lemma button_and_caption_content_witness :
  content_of (document demo_captioned) (fileButton (nodes demo_captioned))
  = ParsedFrom "<svg/> Select an Image"
  ∧ ∃ c, caption (nodes demo_captioned) = Some c
         ∧ content_of (document demo_captioned) c = ParsedFrom "<b>second</b>".
Proof.
  destruct (button_and_caption_content demo_icon demo_params
              [CallFillCaption "first"; CallFillImage "https://x/a.png";
               CallFillCaption "<b>second</b>"] demo_captioned)
    as (Hb & _ & _ & c & Hc & Hcap & _).
  - vm_compute. reflexivity.
  - split; [exact Hb|]. exists c. split; [exact Hc | exact Hcap].
Defined.

Lemma onSelectFile_once_per_click_witness : selectFileCalls demo_clicked = 2.
Proof.
  etrans.
  - apply (onSelectFile_once_per_click demo_icon demo_params
             [Dispatch 2 "click"; Dispatch 2 "load"; CallHidePreloader;
              Dispatch 2 "click"] demo_clicked).
    vm_compute. reflexivity.
  - vm_compute. reflexivity.
Defined.

Lemma render_with_file_witness :
  ∃ s', render (mkImageToolData (Some {[ "url" := "https://x/a.png" ]}) None) demo_fresh
        = Ok (wrapper (nodes demo_fresh), s')
        ∧ classes_of (document s') (wrapper (nodes s'))
          = classes_of (document demo_fresh) (wrapper (nodes demo_fresh)).
Proof.
  destruct (render_with_file demo_icon demo_params [] demo_fresh
              (mkImageToolData (Some {[ "url" := "https://x/a.png" ]}) None)
              {[ "url" := "https://x/a.png" ]} "https://x/a.png")
    as (s' & _ & Hr & _ & Hcl & _).
  - vm_compute. reflexivity.
  - reflexivity.
  - vm_compute. reflexivity.
  - exists s'. split; [exact Hr | exact Hcl].
Defined.

Lemma readiness_effects_witness :
  ∃ s', dispatchEvent 6 "loadeddata" demo_pending = Ok s'
        ∧ active_states s' = [Filled]
        ∧ heap (document s') !! 2 = heap (document demo_pending) !! 2.
Proof.
  destruct (readiness_effects demo_icon demo_params
              [CallFillImage "https://x/a.png"; Dispatch 5 "load";
               CallFillImage "https://x/b.mp4"] demo_pending 6 "loadeddata")
    as (s' & pre & Hs' & Hpre & _ & Hact & _ & _ & _ & Hframe).
  - vm_compute. reflexivity.
  - vm_compute. apply list_elem_of_here.
  - exists s'. split; [exact Hs'|]. split; [exact Hact|].
    assert (Hp : pre = 3) by (vm_compute in Hpre; congruence).
    apply Hframe; [vm_compute; lia | vm_compute; lia | lia].
Defined.

Lemma last_readiness_wins_witness :
  ∃ s1 s2, dispatchEvent 6 "loadeddata" demo_two_pending = Ok s1
           ∧ dispatchEvent 5 "load" s1 = Ok s2
           ∧ attached_media s2 = [5].
Proof.
  destruct (last_readiness_wins demo_icon demo_params
              [CallFillImage "https://x/a.png"; CallFillImage "https://x/b.mp4"]
              demo_two_pending 6 5 "loadeddata" "load")
    as (s1 & s2 & H1 & H2 & _ & Ham & _).
  - vm_compute. reflexivity.
  - vm_compute. apply list_elem_of_here.
  - vm_compute. apply list_elem_of_here.
  - exists s1, s2. split; [exact H1|]. split; [exact H2 | exact Ham].
Defined.

Lemma listeners_kept_witness :
  ∃ s', for_each step [Dispatch 6 "loadeddata"; CallClearImage] demo_pending = Ok s'
        ∧ listeners_of (document s') 5 = [("load", MediaReady 5)].
Proof.
  eexists. split; [vm_compute; reflexivity|].
  etrans.
  - eapply (listeners_kept demo_icon demo_params
              [CallFillImage "https://x/a.png"; Dispatch 5 "load";
               CallFillImage "https://x/b.mp4"]
              [Dispatch 6 "loadeddata"; CallClearImage] demo_pending _ 5).
    + vm_compute. reflexivity.
    + vm_compute. reflexivity.
    + vm_compute. eexists. reflexivity.
  - vm_compute. reflexivity.
Defined.

Lemma media_element_untouched_witness :
  ∃ s', hidePreloader demo_loaded = Ok s'
        ∧ heap (document s') !! 5 = heap (document demo_loaded) !! 5.
Proof.
  eexists. split; [vm_compute; reflexivity|].
  apply (media_element_untouched demo_icon demo_params
           [CallFillImage "https://x/a.png"; Dispatch 5 "load"] demo_loaded
           CallHidePreloader).
  - vm_compute. reflexivity.
  - vm_compute. reflexivity.
  - reflexivity.
  - vm_compute. reflexivity.
Defined.

Lemma cleared_stays_hidden_witness :
  ∃ s', for_each step [Dispatch 5 "load"] demo_cleared = Ok s'
        ∧ attached_media s' = [5]
        ∧ style_of (document s') 5 "display" = "none".
Proof.
  eexists. split; [vm_compute; reflexivity|]. split; [vm_compute; reflexivity|].
  apply (cleared_stays_hidden demo_icon demo_params
           [CallFillImage "https://x/a.png"; Dispatch 5 "load"; CallClearImage]
           [Dispatch 5 "load"] demo_cleared).
  - vm_compute. reflexivity.
  - vm_compute. reflexivity.
  - vm_compute. reflexivity.
  - vm_compute. reflexivity.
Defined.

Lemma clearImage_keeps_pending_witness :
  ∃ s1 ev s2,
    fillImage "https://x/a.png" demo_fresh = Ok s1
    ∧ clearImage s1 = Ok s1
    ∧ dispatchEvent 5 ev s1 = Ok s2
    ∧ attached_media s2 = [5].
Proof.
  destruct (clearImage_keeps_pending demo_icon demo_params [] demo_fresh
              "https://x/a.png") as (s1 & ev & s2 & H1 & H2 & H3 & H4 & _).
  - vm_compute. reflexivity.
  - vm_compute. reflexivity.
  - exists s1, ev, s2. split; [exact H1|]. split; [exact H2|].
    split; [exact H3 | exact H4].
Defined.

Lemma button_visible_with_media_witness :
  ∃ s1 s2 ev s3,
    fillImage "https://x/b.mp4" demo_loaded = Ok s1
    ∧ clearImage s1 = Ok s2
    ∧ dispatchEvent 6 ev s2 = Ok s3
    ∧ attached_media s3 = [6]
    ∧ style_of (document s3) (fileButton (nodes s3)) "display" = "flex".
Proof.
  destruct (button_visible_with_media demo_icon demo_params
              [CallFillImage "https://x/a.png"; Dispatch 5 "load"] demo_loaded 5
              "https://x/b.mp4") as (s1 & s2 & ev & s3 & H1 & H2 & H3 & H4 & H5 & _).
  - vm_compute. reflexivity.
  - vm_compute. reflexivity.
  - exists s1, s2, ev, s3. split; [exact H1|]. split; [exact H2|].
    split; [exact H3|]. split; [exact H4 | exact H5].
Defined.

Lemma clearImage_idempotent_witness :
  ∃ s1, clearImage demo_loaded = Ok s1 ∧ clearImage s1 = Ok s1
        ∧ active_states s1 = [Filled].
Proof.
  destruct (clearImage_idempotent demo_icon demo_params
              [CallFillImage "https://x/a.png"; Dispatch 5 "load"] demo_loaded)
    as (s1 & H1 & H2 & _ & Hact).
  - vm_compute. reflexivity.
  - exists s1. split; [exact H1|]. split; [exact H2|].
    rewrite Hact. vm_compute. reflexivity.
Defined.

Lemma hidePreloader_idempotent_witness :
  ∃ s1, hidePreloader demo_loaded = Ok s1 ∧ hidePreloader s1 = Ok s1.
Proof.
  eexists. split; [vm_compute; reflexivity|].
  apply (hidePreloader_idempotent demo_loaded). vm_compute. reflexivity.
Defined.

Lemma preloader_untouched_witness :
  ∃ preloader,
    imagePreloader (nodes demo_loaded) = Some preloader
    ∧ style_of (document demo_loaded) preloader "backgroundImage" = "".
Proof.
  destruct (preloader_untouched demo_icon demo_params
              [CallFillImage "https://x/a.png"; Dispatch 5 "load"] demo_loaded)
    as (pre & Hpre & _ & Hbg).
  - vm_compute. reflexivity.
  - exists pre. split; [exact Hpre | exact Hbg].
Defined.

Lemma applyTune_effect_witness :
  ∃ s', applyTune "stretched" true demo_tuned = Ok s'
        ∧ modifier "stretched" ∈ classes_of (document s') (wrapper (nodes s'))
        ∧ modifier "border" ∈ classes_of (document s') (wrapper (nodes s')).
Proof.
  destruct (applyTune_effect demo_icon demo_params [CallApplyTune "border" true]
              demo_tuned "stretched" true) as (s' & Hs' & _ & Hon & Hkeep & _).
  - vm_compute. reflexivity.
  - reflexivity.
  - exists s'. split; [exact Hs'|]. split.
    + apply Hon. reflexivity.
    + apply Hkeep; [vm_compute; discriminate|].
      vm_compute. apply list_elem_of_further, list_elem_of_further, list_elem_of_here.
Defined.

Lemma applyTune_idempotent_witness :
  ∃ s1, applyTune "border" false demo_tuned = Ok s1
        ∧ applyTune "border" false s1 = Ok s1.
Proof.
  eexists. split; [vm_compute; reflexivity|].
  apply (applyTune_idempotent "border" false demo_tuned). vm_compute. reflexivity.
Defined.

Lemma base_classes_kept_witness :
  "image-tool" ∈ classes_of (document demo_empty) (wrapper (nodes demo_empty))
  ∧ "cdx-block" ∈ classes_of (document demo_empty) (wrapper (nodes demo_empty)).
Proof.
  destruct (base_classes_kept demo_icon demo_params [CallHidePreloader] demo_empty)
    as (_ & _ & _ & Hw & Hb).
  - vm_compute. reflexivity.
  - split; [exact Hw|]. apply Hb. intros name. vm_compute. discriminate.
Defined.

Lemma uploading_never_entered_witness : Uploading ∉ active_states demo_pending.
Proof.
  apply (uploading_never_entered demo_icon demo_params
           [CallFillImage "https://x/a.png"; Dispatch 5 "load";
            CallFillImage "https://x/b.mp4"]).
  - vm_compute. reflexivity.
  - reflexivity.
  - vm_compute. discriminate.
Defined.
